(** * Unit converter: the conversion engine of [main.py]

    A shallow embedding of [UNITS], [convert_temperature] and [convert_unit]
    and the properties of the conversion engine.

    Python's [float] is IEEE 754 binary64; it is modelled by [spec_float]
    (sign, mantissa, exponent, with round-to-nearest-even operations) at
    precision 53 and maximal exponent 1024.  The value to convert is a
    float, as the annotation and the docstrings of the two functions say and
    as the form passes it; the integers of the program (the factors 1 and
    1000, the constants 32, 5 and 9) are [int] operands that the float
    operations convert.  Statements that quantify over every [F64.t] hold in
    particular for the floats that denote real numbers.

    Dictionaries are finite maps keyed by strings.  A subscript on a missing
    key raises [KeyError], a division by zero raises [ZeroDivisionError],
    and the module-level table is held in an explicit store that every
    operation threads through. *)

From Stdlib Require Import ZArith Lia Floats.SpecFloat.
From stdpp Require Import base option gmap strings.

Local Open Scope Z_scope.

(** ** Binary64 arithmetic *)

Module F64.

Definition prec : Z := 53.
Definition emax : Z := 1024.

Definition t : Type := spec_float.

Definition add : t → t → t := SFadd prec emax.
Definition sub : t → t → t := SFsub prec emax.
Definition mul : t → t → t := SFmul prec emax.
Definition div : t → t → t := SFdiv prec emax.

(** Python's [==], [<] on floats: false as soon as one side is a NaN. *)
Definition eqb : t → t → bool := SFeqb.
Definition ltb : t → t → bool := SFltb.

(** The float nearest to an integer (ties to even), as [float(n)] and the
    implicit coercion of an [int] operand compute it. *)
Definition of_Z (n : Z) : t := binary_normalize prec emax n 0 false.

(** The float denoted by the decimal literal [m / 10^k]: the literal is
    read with correct rounding, which is the correctly rounded quotient of
    the two integers as long as both are below [2^53]. *)
Definition decimal (m : Z) (k : Z) : t := div (of_Z m) (of_Z (10 ^ k)).

Definition is_zero (x : t) : bool :=
  match x with S754_zero _ => true | _ => false end.

Definition is_infinity (x : t) : bool :=
  match x with S754_infinity _ => true | _ => false end.

(** Well-formed binary64 values: a finite one has its canonical mantissa
    and an exponent in range. *)
Definition valid (x : t) : bool := valid_binary prec emax x.

(** The floats that denote a real number: neither a NaN nor an infinity. *)
Definition is_real (x : t) : bool :=
  valid x && match x with
             | S754_zero _ | S754_finite _ _ _ => true
             | _ => false
             end.

Definition zero : t := S754_zero false.
Definition inf : t := S754_infinity false.

End F64.

(** ** Python values, exceptions and the store *)

(** The values held by the tables: [int], [float] and [str]. *)
Inductive value : Type :=
  | VInt (n : Z)
  | VFloat (x : F64.t)
  | VStr (s : string).

Inductive exn : Type :=
  | KeyError (key : string)
  | TypeError
  | ZeroDivisionError
  | OverflowError.

Inductive result (A : Type) : Type :=
  | Ok (a : A)
  | Raise (e : exn).
Arguments Ok {A} a.
Arguments Raise {A} e.

(** A dictionary of dictionaries, as [UNITS] is. *)
Abbreviation table := (gmap string value).
Abbreviation tables := (gmap string (gmap string value)).

(** The module's global variables. *)
Record globals : Type := Globals { g_UNITS : tables }.

(** Computations read and may write the globals, and return or raise. *)
Definition M (A : Type) : Type := globals → result A * globals.

#[export] Instance M_ret : MRet M := λ A a g, (Ok a, g).

#[export] Instance M_bind : MBind M := λ A B f m g,
  match m g with
  | (Ok a, g') => f a g'
  | (Raise e, g') => (Raise e, g')
  end.

Definition raise {A : Type} (e : exn) : M A := λ g, (Raise e, g).

(** Reading the global name [UNITS]. *)
Definition load_UNITS : M tables := λ g, (Ok (g_UNITS g), g).

(** [d[k]] on a dictionary. *)
Definition getitem {V : Type} (d : gmap string V) (k : string) : M V :=
  match d !! k with
  | Some v => mret v
  | None => raise (KeyError k)
  end.

(** The coercion of the right operand of a float operation: an [int] is
    converted to the nearest float, and the conversion raises when the
    integer is out of the range of floats; a [str] is no number. *)
Definition as_float (y : value) : M F64.t :=
  match y with
  | VFloat b => mret b
  | VInt n =>
      let b := F64.of_Z n in
      if F64.is_infinity b then raise OverflowError else mret b
  | VStr _ => raise TypeError
  end.

(** [x - y], [x + y], [x * y] and [x / y] for a float [x]. *)
Definition py_sub (x : F64.t) (y : value) : M F64.t :=
  b ← as_float y; mret (F64.sub x b).

Definition py_add (x : F64.t) (y : value) : M F64.t :=
  b ← as_float y; mret (F64.add x b).

Definition py_mul (x : F64.t) (y : value) : M F64.t :=
  b ← as_float y; mret (F64.mul x b).

Definition py_truediv (x : F64.t) (y : value) : M F64.t :=
  b ← as_float y;
  if F64.is_zero b then raise ZeroDivisionError else mret (F64.div x b).

(** ** The program *)

(** The table [UNITS] as the module creates it. *)
Definition UNITS : tables :=
  {[ "Length" :=
       {[ "Meter" := VInt 1;
          "Kilometer" := VInt 1000;
          "Centimeter" := VFloat (F64.decimal 1 2);
          "Millimeter" := VFloat (F64.decimal 1 3);
          "Mile" := VFloat (F64.decimal 160934 2);
          "Yard" := VFloat (F64.decimal 9144 4);
          "Foot" := VFloat (F64.decimal 3048 4);
          "Inch" := VFloat (F64.decimal 254 4) ]};
     "Weight" :=
       {[ "Kilogram" := VInt 1;
          "Gram" := VFloat (F64.decimal 1 3);
          "Milligram" := VFloat (F64.decimal 1 6);
          "Pound" := VFloat (F64.decimal 453592 6);
          "Ounce" := VFloat (F64.decimal 283495 7) ]};
     "Temperature" :=
       {[ "Celsius" := VStr "C";
          "Fahrenheit" := VStr "F";
          "Kelvin" := VStr "K" ]} ]}.

Definition initial : globals := Globals UNITS.

Definition convert_temperature (value : F64.t) (from_unit to_unit : string)
  : M F64.t :=
  if String.eqb from_unit to_unit then mret value
  else
    celsius ←
      (if String.eqb from_unit "Fahrenheit" then
         d ← py_sub value (VInt 32);
         p ← py_mul d (VInt 5);
         py_truediv p (VInt 9)
       else if String.eqb from_unit "Kelvin" then
         py_sub value (VFloat (F64.decimal 27315 2))
       else mret value);
    if String.eqb to_unit "Fahrenheit" then
      p ← py_mul celsius (VInt 9);
      q ← py_truediv p (VInt 5);
      py_add q (VInt 32)
    else if String.eqb to_unit "Kelvin" then
      py_add celsius (VFloat (F64.decimal 27315 2))
    else mret celsius.

Definition convert_unit (value : F64.t) (unit_from unit_to unit_type : string)
  : M F64.t :=
  if String.eqb unit_type "Temperature" then
    convert_temperature value unit_from unit_to
  else
    units ← load_UNITS;
    tbl ← getitem units unit_type;
    factor_from ← getitem tbl unit_from;
    base_value ← py_mul value factor_from;
    units' ← load_UNITS;
    tbl' ← getitem units' unit_type;
    factor_to ← getitem tbl' unit_to;
    py_truediv base_value factor_to.

(** What a call returns, and the store it leaves, from the initial store. *)
Definition eval {A : Type} (m : M A) : result A := fst (m initial).
Definition exec {A : Type} (m : M A) : globals := snd (m initial).

(** ** Specification-side notions *)

(** The number a table entry stands for in a float operation. *)
Definition numeric (y : value) : option F64.t :=
  match y with
  | VFloat b => Some b
  | VInt n =>
      let b := F64.of_Z n in if F64.is_infinity b then None else Some b
  | VStr _ => None
  end.

(** [unit_entry ty u]: the entry of unit [u] in the table of category [ty],
    when both exist. *)
Definition unit_entry (ty u : string) : option value :=
  tbl ← UNITS !! ty; tbl !! u.

(** [u] is a key of the table of category [ty]. *)
Definition is_unit (ty u : string) : Prop := is_Some (unit_entry ty u).

(** [factor ty u]: the conversion factor of unit [u] in category [ty]. *)
Definition factor (ty u : string) : option F64.t :=
  unit_entry ty u ≫= numeric.

(** The categories converted by linear scaling. *)
Definition linear (ty : string) : Prop := ty = "Length" ∨ ty = "Weight".

(** The base unit of the two linear categories. *)
Definition base_unit (ty : string) : option string :=
  if String.eqb ty "Length" then Some "Meter"
  else if String.eqb ty "Weight" then Some "Kilogram"
  else None.

(** A factor is usable when it is a positive real number. *)
Definition positive_factor (y : value) : bool :=
  match numeric y with
  | Some f => F64.ltb F64.zero f && F64.is_real f
  | None => false
  end.

(** The invariant of the tables: each linear category has a table, its base
    unit has factor 1 and all its factors are positive. *)
Definition units_invariant (U : tables) : Prop :=
  ∀ ty base, base_unit ty = Some base →
    ∃ tbl, U !! ty = Some tbl
           ∧ tbl !! base ≫= numeric = Some (F64.of_Z 1)
           ∧ map_Forall (λ _ y, positive_factor y = true) tbl.

(** A computation that leaves the store as it found it. *)
Definition read_only {A : Type} (m : M A) : Prop := ∀ g, snd (m g) = g.

(** The three temperature scales, and the two legs of a temperature
    conversion as the design describes them: to Celsius, then from Celsius. *)
Inductive scale : Type := Celsius | Fahrenheit | Kelvin.

Definition scale_name (s : scale) : string :=
  match s with
  | Celsius => "Celsius"
  | Fahrenheit => "Fahrenheit"
  | Kelvin => "Kelvin"
  end.

Definition to_celsius (s : scale) (v : F64.t) : F64.t :=
  match s with
  | Fahrenheit =>
      F64.div (F64.mul (F64.sub v (F64.of_Z 32)) (F64.of_Z 5)) (F64.of_Z 9)
  | Kelvin => F64.sub v (F64.decimal 27315 2)
  | Celsius => v
  end.

Definition of_celsius (s : scale) (c : F64.t) : F64.t :=
  match s with
  | Fahrenheit =>
      F64.add (F64.div (F64.mul c (F64.of_Z 9)) (F64.of_Z 5)) (F64.of_Z 32)
  | Kelvin => F64.add c (F64.decimal 27315 2)
  | Celsius => c
  end.

(** The scale a unit name is taken for: any name other than the two
    recognised ones counts as Celsius. *)
Definition scale_of (u : string) : scale :=
  if String.eqb u "Fahrenheit" then Fahrenheit
  else if String.eqb u "Kelvin" then Kelvin
  else Celsius.

(** ** The form

    [main] builds the page with the widgets of the [streamlit] library, which
    is no part of the program: the two kinds of input widgets are taken as
    parameters.  [selectbox ui label options key] is the option the user has
    picked in the select box and [number_input ui label] the float typed
    in the number field.  The page is the list of the elements that [main]
    emits, in order; the columns, which only place them, are left out, and a
    float shown to four decimals is kept as the float.  When an exception
    escapes [main] the run ends with it. *)

(** [list(d.keys())]; the model keeps no insertion order, and nothing below
    depends on the order. *)
Definition keys {V : Type} (d : gmap string V) : list string :=
  (map_to_list d).*1.

Record widgets : Type := Widgets {
  selectbox : string → list string → string → string;
  number_input : string → F64.t
}.

Inductive element : Type :=
  | StPageConfig (page_title page_icon layout : string)
  | StTitle (body : string)
  | StWrite (body : string)
  | StSubheader (body : string)
  | StMarkdown (body : string)
  | StSelectbox (label : string) (options : list string) (key : string)
  | StNumberInput (label : string)
  | StInfo (x : F64.t) (unit_name : string)
  | StSuccess (x : F64.t) (unit_name : string)
  | StError (e : exn)
  | StExpander (label body : string).

(** [try: body except Exception as e: handler e]. *)
Definition try_except {A : Type} (body : M A) (handler : exn → M A) : M A :=
  λ g, match body g with
       | (Ok a, g') => (Ok a, g')
       | (Raise e, g') => handler e g'
       end.

Definition main (ui : widgets) : M (list element) :=
  units ← load_UNITS;
  let unit_type := selectbox ui "Select Unit Type" (keys units) "unit_type" in
  let input_value := number_input ui "Enter Value" in
  units1 ← load_UNITS;
  tbl1 ← getitem units1 unit_type;
  let from_unit := selectbox ui "From Unit" (keys tbl1) "from_unit" in
  units2 ← load_UNITS;
  tbl2 ← getitem units2 unit_type;
  let to_unit := selectbox ui "To Unit" (keys tbl2) "to_unit" in
  shown ← try_except
    (result ← convert_unit input_value from_unit to_unit unit_type;
     mret [ StMarkdown "---"; StSubheader "Result";
            StInfo input_value from_unit; StSuccess result to_unit ])
    (λ e, mret [ StError e ]);
  mret ([ StPageConfig "Unit Converter" "🔄" "centered";
          StTitle "📐 Unit Converter";
          StWrite "Convert between different units of measurement";
          StSelectbox "Select Unit Type" (keys units) "unit_type";
          StSubheader "From";
          StNumberInput "Enter Value";
          StSelectbox "From Unit" (keys tbl1) "from_unit";
          StSubheader "To";
          StSelectbox "To Unit" (keys tbl2) "to_unit" ]
        ++ shown
        ++ [ StExpander "ℹ️ About" "
        This unit converter supports:
        - Length (m, km, cm, mm, mile, yard, foot, inch)
        - Weight (kg, g, mg, lb, oz)
        - Temperature (°C, °F, K)
        
        Values are rounded to 4 decimal places for display.
        " ]).

(** A select box returns one of the options it is given. *)
Definition offers_choice (ui : widgets) : Prop :=
  ∀ label options key, options ≠ [] → selectbox ui label options key ∈ options.

(** The selections of a run of the form. *)
Definition chosen_type (ui : widgets) : string :=
  selectbox ui "Select Unit Type" (keys UNITS) "unit_type".

Definition chosen_from (ui : widgets) : string :=
  selectbox ui "From Unit" (keys (default ∅ (UNITS !! chosen_type ui))) "from_unit".

Definition chosen_to (ui : widgets) : string :=
  selectbox ui "To Unit" (keys (default ∅ (UNITS !! chosen_type ui))) "to_unit".

(** The user who keeps the first option of every select box and enters [x]. *)
Definition first_option (x : F64.t) : widgets :=
  Widgets (λ _ options _, hd "" options) (λ _, x).

(** The names of the units of each category. *)
Definition unit_names (ty : string) : list string :=
  if String.eqb ty "Length" then
    [ "Meter"; "Kilometer"; "Centimeter"; "Millimeter";
      "Mile"; "Yard"; "Foot"; "Inch" ]
  else if String.eqb ty "Weight" then
    [ "Kilogram"; "Gram"; "Milligram"; "Pound"; "Ounce" ]
  else if String.eqb ty "Temperature" then
    [ "Celsius"; "Fahrenheit"; "Kelvin" ]
  else [].

(** The sign of a float; a NaN has none. *)
Definition sign_bit (x : F64.t) : option bool :=
  match x with
  | S754_zero s | S754_infinity s | S754_finite s _ _ => Some s
  | S754_nan => None
  end.

(** The opposite of a float. *)
Definition negate : F64.t → F64.t := SFopp.

(** The floats that are no real number: the NaN and the two infinities. *)
Definition not_finite (x : F64.t) : bool :=
  match x with
  | S754_nan | S754_infinity _ => true
  | _ => false
  end.

(** The NaN. *)
Definition is_nan (x : F64.t) : bool :=
  match x with S754_nan => true | _ => false end.

(** The floats with a mantissa: finite and not zero. *)
Definition has_mantissa (x : F64.t) : bool :=
  match x with S754_finite _ _ _ => true | _ => false end.

(** The exponent of a float as a function of the position of its leading
    digit, for binary64. *)
Definition fx (x : Z) : Z := fexp F64.prec F64.emax x.

(** Proving a property of every entry of a table written out with its keys. *)
Ltac each_entry :=
  repeat (apply map_Forall_insert_2; [vm_compute; reflexivity|]);
  apply map_Forall_empty.

(** ** Exact binary64 operations *)

Module F64Facts.

Lemma iter_shr_exact (k m : positive) :
  SpecFloat.iter_pos shr_1 k (Build_shr_record (Zpos (Pos.iter xO m k)) false false)
  = Build_shr_record (Zpos m) false false.
Proof.
  revert m. induction k as [k IH|k IH|]; intros m; simpl.
  - now rewrite !IH.
  - now rewrite !IH.
  - reflexivity.
Qed.

Lemma digits2_iter (k m : positive) :
  Zpos (digits2_pos (Pos.iter xO m k)) = Zpos (digits2_pos m) + Zpos k.
Proof.
  induction k as [|k IH] using Pos.peano_ind.
  - simpl. lia.
  - rewrite Pos.iter_succ. simpl digits2_pos. lia.
Qed.

Lemma iter_xO_mul (m k : positive) :
  Zpos (Pos.iter xO m k) = Zpos m * Zpos (Pos.iter xO 1%positive k).
Proof.
  induction k as [|k IH] using Pos.peano_ind.
  - simpl. lia.
  - rewrite !Pos.iter_succ. lia.
Qed.

Lemma div_eucl_exact (q b : positive) :
  Z.div_eucl (Zpos q * Zpos b) (Zpos b) = (Zpos q, 0).
Proof.
  assert (H : Z.div_eucl (Zpos q * Zpos b) (Zpos b)
              = ((Zpos q * Zpos b) / Zpos b, (Zpos q * Zpos b) mod Zpos b)).
  { unfold Z.div, Z.modulo. now destruct Z.div_eucl. }
  rewrite H, Z.div_mul, Z.mod_mul by lia. reflexivity.
Qed.

Lemma bounded_inv (m : positive) (e : Z) :
  bounded F64.prec F64.emax m e = true →
  fexp F64.prec F64.emax (Zpos (digits2_pos m) + e) = e
  ∧ e ≤ F64.emax - F64.prec.
Proof.
  unfold bounded, canonical_mantissa. intros [H1 H2]%andb_prop.
  split; [now apply Z.eqb_eq | now apply Z.leb_le].
Qed.

(** Rounding a mantissa that is already canonical changes nothing. *)
Lemma round_aux_id (s : bool) (m : positive) (e : Z) :
  bounded F64.prec F64.emax m e = true →
  binary_round_aux F64.prec F64.emax s (Zpos m) e loc_Exact = S754_finite s m e.
Proof.
  intros [Hc He]%bounded_inv.
  unfold binary_round_aux, shr_fexp. unfold Zdigits2 at 1.
  rewrite Hc, Z.sub_diag. simpl. rewrite Hc, Z.sub_diag. simpl.
  apply Z.leb_le in He. now rewrite He.
Qed.

(** Rounding a canonical mantissa followed by [k] zero bits drops them. *)
Lemma round_aux_exact (s : bool) (m k : positive) (e : Z) :
  bounded F64.prec F64.emax m e = true →
  binary_round_aux F64.prec F64.emax s (Zpos (Pos.iter xO m k)) (e - Zpos k) loc_Exact
  = S754_finite s m e.
Proof.
  intros Hb. destruct (bounded_inv _ _ Hb) as [Hc He].
  unfold binary_round_aux, shr_fexp. unfold Zdigits2 at 1.
  rewrite digits2_iter.
  replace (Zpos (digits2_pos m) + Zpos k + (e - Zpos k))
    with (Zpos (digits2_pos m) + e) by lia.
  rewrite Hc. replace (e - (e - Zpos k)) with (Zpos k) by lia.
  unfold shr at 1. simpl shr_record_of_loc. rewrite iter_shr_exact.
  replace (e - Zpos k + Zpos k) with e by lia.
  simpl. rewrite Hc, Z.sub_diag. simpl.
  apply Z.leb_le in He. now rewrite He.
Qed.

Lemma mul_one_r (v : F64.t) :
  F64.valid v = true → F64.mul v (F64.of_Z 1) = v.
Proof.
  destruct v as [s|s| |s m e]; intros Hv;
    try (destruct s; reflexivity); try reflexivity.
  change (F64.of_Z 1) with (S754_finite false (Pos.iter xO 1%positive 52) (-52)).
  unfold F64.mul, SFmul. rewrite xorb_false_r.
  replace (m * Pos.iter xO 1 52)%positive with (Pos.iter xO m 52)
    by (rewrite Pos.mul_comm; reflexivity).
  apply (round_aux_exact s m 52 e Hv).
Qed.

Lemma mul_one_l (v : F64.t) :
  F64.valid v = true → F64.mul (F64.of_Z 1) v = v.
Proof.
  destruct v as [s|s| |s m e]; intros Hv; try reflexivity.
  change (F64.of_Z 1) with (S754_finite false (Pos.iter xO 1%positive 52) (-52)).
  unfold F64.mul, SFmul. rewrite xorb_false_l.
  change (Pos.iter xO 1 52 * m)%positive with (Pos.iter xO m 52).
  replace (-52 + e) with (e - 52) by lia.
  apply (round_aux_exact s m 52 e Hv).
Qed.

Lemma div_one_r (v : F64.t) :
  F64.valid v = true → F64.div v (F64.of_Z 1) = v.
Proof.
  destruct v as [s|s| |s m e]; intros Hv;
    try (destruct s; reflexivity); try reflexivity.
  change (F64.of_Z 1) with (S754_finite false (Pos.iter xO 1%positive 52) (-52)).
  destruct (bounded_inv _ _ Hv) as [Hc He].
  unfold F64.div, SFdiv, SFdiv_core_binary. rewrite xorb_false_r.
  change (Zdigits2 (Zpos (Pos.iter xO 1%positive 52))) with 53.
  unfold Zdigits2.
  set (d := Zpos (digits2_pos m)) in *.
  set (e' := Z.min (fexp F64.prec F64.emax (d + e - (53 + -52))) (e - -52)).
  assert (Hcase : e' = e ∨ e' = e - 1).
  { subst e'. unfold fexp, emin, F64.prec, F64.emax in *. lia. }
  destruct Hcase as [-> | ->].
  - replace (e - -52 - e) with 52 by lia.
    change (Z.shiftl (Zpos m) 52) with (Zpos (Pos.iter xO m 52)).
    rewrite iter_xO_mul, div_eucl_exact.
    change (new_location (Zpos (Pos.iter xO 1%positive 52)) 0) with loc_Exact.
    now apply round_aux_id.
  - replace (e - -52 - (e - 1)) with 53 by lia.
    change (Z.shiftl (Zpos m) 53) with (Zpos (Pos.iter xO (Pos.iter xO m 1) 52)).
    rewrite iter_xO_mul, div_eucl_exact.
    change (new_location (Zpos (Pos.iter xO 1%positive 52)) 0) with loc_Exact.
    now apply (round_aux_exact s m 1 e).
Qed.

(** A positive real float is a finite one with the sign bit clear. *)
Lemma positive_real_shape (f : F64.t) :
  F64.ltb F64.zero f = true → F64.is_real f = true →
  ∃ m e, f = S754_finite false m e ∧ bounded F64.prec F64.emax m e = true.
Proof.
  destruct f as [s|s| |s m e]; try discriminate.
  destruct s; [discriminate|]. intros _ [Hv _]%andb_prop. now exists m, e.
Qed.

Lemma eqb_refl_finite (s : bool) (m : positive) (e : Z) :
  F64.eqb (S754_finite s m e) (S754_finite s m e) = true.
Proof.
  unfold F64.eqb, SFeqb, SFcompare.
  rewrite Z.compare_refl. change (Pos.compare_cont Eq m m) with (Pos.compare m m).
  rewrite Pos.compare_refl. now destruct s.
Qed.

End F64Facts.

(** ** The store is only read *)

Section ReadOnly.
Context {A B : Type}.

Lemma read_only_ret (a : A) : read_only (mret a : M A).
Proof. now intros g. Qed.

Lemma read_only_raise (e : exn) : read_only (raise e : M A).
Proof. now intros g. Qed.

Lemma read_only_bind (m : M A) (k : A → M B) :
  read_only m → (∀ a, read_only (k a)) → read_only (m ≫= k).
Proof.
  intros Hm Hk g. unfold mbind, M_bind.
  specialize (Hm g). destruct (m g) as [[a|e] g']; simpl in Hm; subst g'.
  - apply Hk.
  - reflexivity.
Qed.

Lemma read_only_if (c : bool) (m1 m2 : M A) :
  read_only m1 → read_only m2 → read_only (if c then m1 else m2).
Proof. now destruct c. Qed.
End ReadOnly.

Lemma read_only_load : read_only load_UNITS.
Proof. now intros g. Qed.

Lemma read_only_getitem {V : Type} (d : gmap string V) (k : string) :
  read_only (getitem d k).
Proof. unfold getitem. destruct (d !! k); [apply read_only_ret | apply read_only_raise]. Qed.

Lemma read_only_as_float (y : value) : read_only (as_float y).
Proof.
  destruct y as [n|x|s]; simpl.
  - apply read_only_if; [apply read_only_raise | apply read_only_ret].
  - apply read_only_ret.
  - apply read_only_raise.
Qed.

Lemma read_only_py_sub (x : F64.t) (y : value) : read_only (py_sub x y).
Proof. apply read_only_bind; [apply read_only_as_float | intros; apply read_only_ret]. Qed.

Lemma read_only_py_add (x : F64.t) (y : value) : read_only (py_add x y).
Proof. apply read_only_bind; [apply read_only_as_float | intros; apply read_only_ret]. Qed.

Lemma read_only_py_mul (x : F64.t) (y : value) : read_only (py_mul x y).
Proof. apply read_only_bind; [apply read_only_as_float | intros; apply read_only_ret]. Qed.

Lemma read_only_py_truediv (x : F64.t) (y : value) : read_only (py_truediv x y).
Proof.
  apply read_only_bind; [apply read_only_as_float |].
  intros b. apply read_only_if; [apply read_only_raise | apply read_only_ret].
Qed.

Create HintDb read_only.

#[local] Hint Resolve read_only_ret read_only_raise read_only_load
  read_only_getitem read_only_py_sub read_only_py_add read_only_py_mul
  read_only_py_truediv : read_only.

Lemma read_only_convert_temperature (v : F64.t) (a b : string) :
  read_only (convert_temperature v a b).
Proof.
  unfold convert_temperature.
  repeat first [ solve [auto with read_only]
               | apply read_only_if
               | apply read_only_bind; [|intros ?] ].
Qed.

Lemma read_only_convert_unit (v : F64.t) (a b ty : string) :
  read_only (convert_unit v a b ty).
Proof.
  unfold convert_unit. apply read_only_if.
  - apply read_only_convert_temperature.
  - repeat first [ solve [auto with read_only]
                 | apply read_only_bind; [|intros ?] ].
Qed.

(** ** Running the operations *)

Lemma bind_ok {A B : Type} (m : M A) (k : A → M B) (g g' : globals) (a : A) :
  m g = (Ok a, g') → (m ≫= k) g = k a g'.
Proof. intros H. unfold mbind, M_bind. now rewrite H. Qed.

Lemma getitem_some {V : Type} (d : gmap string V) (k : string) (v : V) (g : globals) :
  d !! k = Some v → getitem d k g = (Ok v, g).
Proof. intros H. unfold getitem. now rewrite H. Qed.

Lemma getitem_none {V : Type} (d : gmap string V) (k : string) (g : globals) :
  d !! k = None → getitem d k g = (Raise (KeyError k), g).
Proof. intros H. unfold getitem. now rewrite H. Qed.

Lemma as_float_numeric (y : value) (b : F64.t) (g : globals) :
  numeric y = Some b → as_float y g = (Ok b, g).
Proof.
  destruct y as [n|x|s]; simpl; intros H.
  - destruct (F64.is_infinity (F64.of_Z n)); [discriminate|]. now inversion H.
  - now inversion H.
  - discriminate.
Qed.

Lemma py_mul_numeric (x b : F64.t) (y : value) (g : globals) :
  numeric y = Some b → py_mul x y g = (Ok (F64.mul x b), g).
Proof.
  intros Hy. unfold py_mul.
  now rewrite (bind_ok _ _ g g b (as_float_numeric _ _ _ Hy)).
Qed.

Lemma py_truediv_numeric (x b : F64.t) (y : value) (g : globals) :
  numeric y = Some b → F64.is_zero b = false →
  py_truediv x y g = (Ok (F64.div x b), g).
Proof.
  intros Hy Hz. unfold py_truediv.
  rewrite (bind_ok _ _ g g b (as_float_numeric _ _ _ Hy)). now rewrite Hz.
Qed.

(** A temperature conversion always returns: the value itself when the two
    names are equal, and otherwise the composition of the two legs. *)
Lemma convert_temperature_run (v : F64.t) (a b : string) (g : globals) :
  convert_temperature v a b g
  = (Ok (if String.eqb a b then v
         else of_celsius (scale_of b) (to_celsius (scale_of a) v)), g).
Proof.
  unfold convert_temperature, scale_of.
  destruct (String.eqb a b); [reflexivity|].
  destruct (String.eqb a "Fahrenheit"), (String.eqb a "Kelvin"),
    (String.eqb b "Fahrenheit"), (String.eqb b "Kelvin"); reflexivity.
Qed.

(** Category Temperature delegates to [convert_temperature]. *)
Lemma convert_unit_temperature (v : F64.t) (a b : string) :
  convert_unit v a b "Temperature" = convert_temperature v a b.
Proof. reflexivity. Qed.

Lemma scale_of_name (s : scale) : scale_of (scale_name s) = s.
Proof. now destruct s. Qed.

Lemma scale_name_inj (s t : scale) : scale_name s = scale_name t → s = t.
Proof. intros H. rewrite <- (scale_of_name s), <- (scale_of_name t). now rewrite H. Qed.

Lemma scale_of_celsius (u : string) :
  u ≠ "Fahrenheit" → u ≠ "Kelvin" → scale_of u = Celsius.
Proof.
  intros HF HK. unfold scale_of.
  destruct (String.eqb_spec u "Fahrenheit"); [done|].
  destruct (String.eqb_spec u "Kelvin"); done.
Qed.

(** The categories of [UNITS]. *)
Lemma units_cases (ty : string) (tbl : table) :
  UNITS !! ty = Some tbl → ty = "Length" ∨ ty = "Weight" ∨ ty = "Temperature".
Proof.
  unfold UNITS. intros H.
  destruct (decide (ty = "Length")) as [->|H1]; [tauto|].
  destruct (decide (ty = "Weight")) as [->|H2]; [tauto|].
  destruct (decide (ty = "Temperature")) as [->|H3]; [tauto|].
  rewrite !lookup_insert_ne in H by done.
  rewrite lookup_singleton_ne in H by done. done.
Qed.

(** Every factor of a linear table is a positive real number. *)
Lemma linear_positive (ty : string) (tbl : table) :
  ty ≠ "Temperature" → UNITS !! ty = Some tbl →
  map_Forall (λ _ y, positive_factor y = true) tbl.
Proof.
  intros Hne H. destruct (units_cases _ _ H) as [-> | [-> | ->]]; [| |done].
  - unfold UNITS in H. rewrite lookup_insert_eq in H.
    inversion H; subst tbl. clear. each_entry.
  - unfold UNITS in H. rewrite lookup_insert_ne in H by done.
    rewrite lookup_insert_eq in H. inversion H; subst tbl. clear. each_entry.
Qed.

Lemma positive_factor_numeric (y : value) :
  positive_factor y = true →
  ∃ f, numeric y = Some f ∧ F64.is_zero f = false
       ∧ F64.ltb F64.zero f = true ∧ F64.is_real f = true.
Proof.
  unfold positive_factor. destruct (numeric y) as [f|]; [|discriminate].
  intros [Hlt Hre]%andb_prop. exists f. repeat split; try done.
  now destruct f.
Qed.

Lemma linear_entry (ty : string) (tbl : table) (u : string) (y : value) :
  ty ≠ "Temperature" → UNITS !! ty = Some tbl → tbl !! u = Some y →
  ∃ f, numeric y = Some f ∧ F64.is_zero f = false
       ∧ F64.ltb F64.zero f = true ∧ F64.is_real f = true.
Proof.
  intros Hne Ht Hu. apply positive_factor_numeric.
  exact (linear_positive ty tbl Hne Ht u y Hu).
Qed.

Lemma linear_not_temperature (ty : string) : linear ty → ty ≠ "Temperature".
Proof. now intros [-> | ->]. Qed.

Lemma is_unit_inv (ty u : string) :
  is_unit ty u → ∃ tbl y, UNITS !! ty = Some tbl ∧ tbl !! u = Some y.
Proof.
  unfold is_unit, unit_entry. intros [y Hy].
  destruct (UNITS !! ty) as [tbl|] eqn:Ht; [|discriminate].
  now exists tbl, y.
Qed.

Section LinearRun.
Variables (v : F64.t) (a b ty : string).
Hypothesis Hty : ty ≠ "Temperature".

Lemma eqb_temperature : String.eqb ty "Temperature" = false.
Proof. now apply String.eqb_neq. Qed.

Lemma convert_unit_unknown_category :
  UNITS !! ty = None → eval (convert_unit v a b ty) = Raise (KeyError ty).
Proof.
  intros H. unfold eval, convert_unit. rewrite eqb_temperature.
  unfold mbind, M_bind, load_UNITS. simpl g_UNITS.
  now rewrite (getitem_none _ _ _ H).
Qed.

Lemma convert_unit_unknown_from (tbl : table) :
  UNITS !! ty = Some tbl → tbl !! a = None →
  eval (convert_unit v a b ty) = Raise (KeyError a).
Proof.
  intros H Ha. unfold eval, convert_unit. rewrite eqb_temperature.
  unfold mbind, M_bind, load_UNITS. simpl g_UNITS.
  rewrite (getitem_some _ _ _ _ H). now rewrite (getitem_none _ _ _ Ha).
Qed.

Lemma convert_unit_unknown_to (tbl : table) (ya : value) :
  UNITS !! ty = Some tbl → tbl !! a = Some ya → tbl !! b = None →
  eval (convert_unit v a b ty) = Raise (KeyError b).
Proof.
  intros H Ha Hb. unfold eval, convert_unit. rewrite eqb_temperature.
  destruct (linear_entry _ _ _ _ Hty H Ha) as (fa & Hfa & _).
  unfold mbind, M_bind, load_UNITS. simpl g_UNITS.
  rewrite (getitem_some _ _ _ _ H), (getitem_some _ _ _ _ Ha).
  rewrite (py_mul_numeric _ _ _ _ Hfa).
  rewrite (getitem_some _ _ _ _ H). now rewrite (getitem_none _ _ _ Hb).
Qed.

Lemma convert_unit_known (tbl : table) (ya yb : value) :
  UNITS !! ty = Some tbl → tbl !! a = Some ya → tbl !! b = Some yb →
  ∃ fa fb, numeric ya = Some fa ∧ numeric yb = Some fb
           ∧ eval (convert_unit v a b ty) = Ok (F64.div (F64.mul v fa) fb).
Proof.
  intros H Ha Hb. unfold eval, convert_unit. rewrite eqb_temperature.
  destruct (linear_entry _ _ _ _ Hty H Ha) as (fa & Hfa & _).
  destruct (linear_entry _ _ _ _ Hty H Hb) as (fb & Hfb & Hz & _).
  exists fa, fb. split; [done|]. split; [done|].
  unfold mbind, M_bind, load_UNITS. simpl g_UNITS.
  rewrite (getitem_some _ _ _ _ H), (getitem_some _ _ _ _ Ha).
  rewrite (py_mul_numeric _ _ _ _ Hfa).
  rewrite (getitem_some _ _ _ _ H), (getitem_some _ _ _ _ Hb).
  now rewrite (py_truediv_numeric _ _ _ _ Hfb Hz).
Qed.
End LinearRun.

Lemma base_unit_inv (ty base : string) :
  base_unit ty = Some base →
  linear ty ∧ ∃ tbl, UNITS !! ty = Some tbl ∧ tbl !! base = Some (VInt 1).
Proof.
  unfold base_unit, linear.
  destruct (String.eqb_spec ty "Length") as [->|_].
  { intros [= <-]. split; [now left|]. eexists. split; reflexivity. }
  destruct (String.eqb_spec ty "Weight") as [->|_]; [|discriminate].
  intros [= <-]. split; [now right|]. eexists. split; reflexivity.
Qed.

Lemma factor_entry (ty u : string) (tbl : table) (y : value) :
  UNITS !! ty = Some tbl → tbl !! u = Some y → factor ty u = numeric y.
Proof. intros Ht Hu. unfold factor, unit_entry. rewrite Ht. simpl. now rewrite Hu. Qed.

Lemma unit_entry_table (ty u : string) (tbl : table) :
  UNITS !! ty = Some tbl → unit_entry ty u = tbl !! u.
Proof. intros Ht. unfold unit_entry. now rewrite Ht. Qed.

(** What a call of [convert_unit] comes to, by cases on its arguments. *)
Lemma convert_unit_outcome (v : F64.t) (a b ty : string) :
  (ty = "Temperature" ∧ ∃ r, eval (convert_unit v a b ty) = Ok r)
  ∨ (ty ≠ "Temperature"
     ∧ (UNITS !! ty = None ∨ unit_entry ty a = None ∨ unit_entry ty b = None)
     ∧ ∃ k, eval (convert_unit v a b ty) = Raise (KeyError k))
  ∨ (ty ≠ "Temperature"
     ∧ is_unit ty a ∧ is_unit ty b
     ∧ ∃ r, eval (convert_unit v a b ty) = Ok r).
Proof.
  destruct (decide (ty = "Temperature")) as [->|Hty].
  { left. split; [done|]. unfold eval.
    rewrite convert_unit_temperature, convert_temperature_run. eauto. }
  right. destruct (UNITS !! ty) as [tbl|] eqn:Ht.
  2:{ left. split; [done|]. split; [now left|].
      exists ty. now apply convert_unit_unknown_category. }
  destruct (tbl !! a) as [ya|] eqn:Ha.
  2:{ left. split; [done|]. split.
      - right. left. now rewrite (unit_entry_table _ _ _ Ht).
      - exists a. now apply (convert_unit_unknown_from v a b ty Hty tbl). }
  destruct (tbl !! b) as [yb|] eqn:Hb.
  2:{ left. split; [done|]. split.
      - right. right. now rewrite (unit_entry_table _ _ _ Ht).
      - exists b. now apply (convert_unit_unknown_to v a b ty Hty tbl ya). }
  right. split; [done|].
  destruct (convert_unit_known v a b ty Hty tbl ya yb Ht Ha Hb) as (fa & fb & _ & _ & Hr).
  unfold is_unit. rewrite !(unit_entry_table _ _ _ Ht), Ha, Hb. eauto.
Qed.

(** ** The properties of the conversion engine *)

(** C1. For every value and every pair of units [a], [b] that are keys of the
    table of a linear category (Length or Weight), [convert_unit] returns
    [(value × factor a) / factor b]: the value is multiplied by the factor of
    the source unit and the product is divided by the factor of the target
    unit, both in binary64 arithmetic. *)
Theorem convert_unit_scales (v : F64.t) (ty a b : string) :
  linear ty → is_unit ty a → is_unit ty b →
  ∃ fa fb, factor ty a = Some fa ∧ factor ty b = Some fb
           ∧ eval (convert_unit v a b ty) = Ok (F64.div (F64.mul v fa) fb).
Proof.
  intros Hty%linear_not_temperature Ha Hb.
  destruct (is_unit_inv _ _ Ha) as (tbl & ya & Ht & Hya).
  destruct (is_unit_inv _ _ Hb) as (tbl' & yb & Ht' & Hyb).
  assert (tbl' = tbl) as -> by congruence.
  destruct (convert_unit_known v a b ty Hty tbl ya yb Ht Hya Hyb)
    as (fa & fb & Hfa & Hfb & Hr).
  exists fa, fb.
  rewrite (factor_entry _ _ _ _ Ht Hya), (factor_entry _ _ _ _ Ht Hyb). done.
Qed.

Lemma convert_unit_scales_witness :
  ∃ fa fb, factor "Length" "Mile" = Some fa ∧ factor "Length" "Kilometer" = Some fb
           ∧ eval (convert_unit (F64.of_Z 26) "Mile" "Kilometer" "Length")
             = Ok (F64.div (F64.mul (F64.of_Z 26) fa) fb).
Proof.
  apply (convert_unit_scales (F64.of_Z 26) "Length" "Mile" "Kilometer").
  - left. reflexivity.
  - eexists. reflexivity.
  - eexists. reflexivity.
Defined.

(** C2. For every value and every pair of distinct scales among Celsius,
    Fahrenheit and Kelvin, [convert_temperature] returns the value brought to
    Celsius ([to_celsius]) and then from Celsius to the target
    ([of_celsius]); and the four fixed points hold: 0 °C is 32 °F, 100 °C is
    212 °F, 0 °C is 273.15 K and 32 °F is 0 °C. *)
Theorem convert_temperature_formulas :
  (∀ (v : F64.t) (s t : scale) (g : globals), s ≠ t →
     convert_temperature v (scale_name s) (scale_name t) g
     = (Ok (of_celsius t (to_celsius s v)), g))
  ∧ eval (convert_unit (F64.of_Z 0) "Celsius" "Fahrenheit" "Temperature")
    = Ok (F64.of_Z 32)
  ∧ eval (convert_unit (F64.of_Z 100) "Celsius" "Fahrenheit" "Temperature")
    = Ok (F64.of_Z 212)
  ∧ eval (convert_unit (F64.of_Z 0) "Celsius" "Kelvin" "Temperature")
    = Ok (F64.decimal 27315 2)
  ∧ eval (convert_unit (F64.of_Z 32) "Fahrenheit" "Celsius" "Temperature")
    = Ok (F64.of_Z 0).
Proof.
  split; [|repeat split; vm_compute; reflexivity].
  intros v s t g Hst. rewrite convert_temperature_run, !scale_of_name.
  destruct (String.eqb_spec (scale_name s) (scale_name t)) as [E|_]; [|done].
  now apply scale_name_inj in E.
Qed.

Lemma convert_temperature_formulas_witness :
  Fahrenheit ≠ Kelvin
  ∧ convert_temperature (F64.of_Z 212) "Fahrenheit" "Kelvin" initial
    = (Ok (of_celsius Kelvin (to_celsius Fahrenheit (F64.of_Z 212))), initial).
Proof.
  split; [discriminate|].
  apply (proj1 convert_temperature_formulas (F64.of_Z 212) Fahrenheit Kelvin initial).
  discriminate.
Defined.

(** C3. [convert_unit] raises [KeyError], and returns no number, exactly when
    the category is not Temperature and either the category is unknown or
    one of the two units is not a key of its table; it raises nothing else.
    Unit Foo of Length and category Bogus are two such cases. *)
Theorem convert_unit_raises_iff (v : F64.t) (a b ty : string) :
  ((∃ k, eval (convert_unit v a b ty) = Raise (KeyError k))
   ↔ ty ≠ "Temperature"
     ∧ (UNITS !! ty = None ∨ unit_entry ty a = None ∨ unit_entry ty b = None))
  ∧ (∀ e, eval (convert_unit v a b ty) = Raise e → ∃ k, e = KeyError k)
  ∧ eval (convert_unit (F64.of_Z 5) "Foo" "Meter" "Length") = Raise (KeyError "Foo")
  ∧ eval (convert_unit (F64.of_Z 5) "Meter" "Meter" "Bogus") = Raise (KeyError "Bogus").
Proof.
  split; [|split; [|split; vm_compute; reflexivity]].
  - destruct (convert_unit_outcome v a b ty)
      as [(-> & r & Hr) | [(Hty & Hc & k & Hk) | (Hty & [ya Ha] & [yb Hb] & r & Hr)]].
    + split; [intros [k Hk]; congruence | intros [Hne _]; done].
    + split; [done | eauto].
    + split; [intros [k Hk]; congruence|].
      intros [_ [Hn | [Hn | Hn]]]; try congruence.
      unfold unit_entry in Ha. rewrite Hn in Ha. discriminate.
  - intros e He.
    destruct (convert_unit_outcome v a b ty)
      as [(_ & r & Hr) | [(_ & _ & k & Hk) | (_ & _ & _ & r & Hr)]]; try congruence.
    exists k. congruence.
Qed.

Lemma convert_unit_raises_iff_witness :
  ∃ k, eval (convert_unit (F64.of_Z 5) "Meter" "Furlong" "Length") = Raise (KeyError k).
Proof.
  apply (proj1 (convert_unit_raises_iff (F64.of_Z 5) "Meter" "Furlong" "Length")).
  split; [discriminate|]. right. right. reflexivity.
Defined.

(** C4. [convert_temperature] never raises: for every value and every pair
    of unit names it returns a float and leaves the store alone; a source
    name other than Fahrenheit and Kelvin is treated as Celsius, and so is a
    target name other than Fahrenheit and Kelvin.  The same holds through
    [convert_unit] with category Temperature. *)
Theorem convert_temperature_total (v : F64.t) (a b : string) (g : globals) :
  (∃ r, convert_temperature v a b g = (Ok r, g))
  ∧ convert_temperature v a b g
    = convert_temperature v (scale_name (scale_of a)) b g
  ∧ convert_temperature v a b g
    = convert_temperature v a (scale_name (scale_of b)) g
  ∧ (∃ r, convert_unit v a b "Temperature" g = (Ok r, g)).
Proof.
  split; [rewrite convert_temperature_run; eauto|].
  split; [|split; [|rewrite convert_unit_temperature,
                      convert_temperature_run; eauto]].
  - rewrite !convert_temperature_run, scale_of_name. f_equal. f_equal.
    unfold scale_of.
    destruct (String.eqb_spec a "Fahrenheit") as [->|HF]; [done|].
    destruct (String.eqb_spec a "Kelvin") as [->|HK]; [done|].
    simpl scale_name.
    destruct (String.eqb_spec a b) as [<-|Hab].
    + rewrite (proj2 (String.eqb_neq _ _) HF), (proj2 (String.eqb_neq _ _) HK).
      now destruct (String.eqb "Celsius" a).
    + destruct (String.eqb_spec "Celsius" b) as [<-|_]; done.
  - rewrite !convert_temperature_run, scale_of_name. f_equal. f_equal.
    unfold scale_of.
    destruct (String.eqb_spec b "Fahrenheit") as [->|HF]; [done|].
    destruct (String.eqb_spec b "Kelvin") as [->|HK]; [done|].
    simpl scale_name.
    destruct (String.eqb_spec a b) as [->|Hab].
    + rewrite (proj2 (String.eqb_neq _ _) HF), (proj2 (String.eqb_neq _ _) HK).
      now destruct (String.eqb b "Celsius").
    + destruct (String.eqb_spec a "Celsius") as [->|_]; done.
Qed.

(** C5. For every value and every unit name [u], recognised or not,
    [convert_temperature value u u] returns the value itself. *)
Theorem convert_temperature_same_unit (v : F64.t) (u : string) (g : globals) :
  convert_temperature v u u g = (Ok v, g).
Proof. unfold convert_temperature. now rewrite String.eqb_refl. Qed.

(** C6. A conversion from a unit to the same unit is to return the value
    itself in every category.  [convert_temperature] does so by testing the
    two names first; the linear path of [convert_unit] has no such test and
    multiplies and divides by the factor, so it misses the identity: 7
    centimetres converted to centimetres is [7 × 0.01 / 0.01], which rounds
    to the float just above 7, and the largest float converted from
    kilometres to kilometres overflows to infinity. *)
Lemma same_unit_not_identity :
  is_unit "Length" "Centimeter"
  ∧ F64.is_real (F64.of_Z 7) = true
  ∧ eval (convert_unit (F64.of_Z 7) "Centimeter" "Centimeter" "Length")
    = Ok (S754_finite false 7881299347898369 (-50))
  ∧ F64.eqb (S754_finite false 7881299347898369 (-50)) (F64.of_Z 7) = false
  ∧ is_unit "Length" "Kilometer"
  ∧ F64.is_real (SFmax_float F64.prec F64.emax) = true
  ∧ eval (convert_unit (SFmax_float F64.prec F64.emax) "Kilometer" "Kilometer" "Length")
    = Ok F64.inf
  ∧ F64.eqb F64.inf (SFmax_float F64.prec F64.emax) = false.
Proof.
  split; [eexists; reflexivity|].
  split; [reflexivity|].
  split; [vm_compute; reflexivity|].
  split; [reflexivity|].
  split; [eexists; reflexivity|].
  repeat split; vm_compute; reflexivity.
Qed.

(** Where a same-unit conversion does return the value.  With category
    Temperature, converting any value from a unit name to the same name
    returns the value itself.  With Length or Weight and a unit [u] of the
    table, the conversion returns [(value × factor u) / factor u] computed
    in binary64 and raises nothing; for the base unit (Meter, Kilogram) that
    is the value itself, for every well-formed float. *)
Theorem same_unit_conversion :
  (∀ (v : F64.t) (u : string) (g : globals),
     convert_unit v u u "Temperature" g = (Ok v, g))
  ∧ (∀ (v : F64.t) (ty u : string), linear ty → is_unit ty u →
       ∃ f, factor ty u = Some f
            ∧ eval (convert_unit v u u ty) = Ok (F64.div (F64.mul v f) f))
  ∧ (∀ (v : F64.t) (ty base : string),
       base_unit ty = Some base → F64.valid v = true →
       eval (convert_unit v base base ty) = Ok v).
Proof.
  split; [|split].
  - intros v u g. rewrite convert_unit_temperature.
    unfold convert_temperature. now rewrite String.eqb_refl.
  - intros v ty u Hty%linear_not_temperature Hu.
    destruct (is_unit_inv _ _ Hu) as (tbl & y & Ht & Hy).
    destruct (convert_unit_known v u u ty Hty tbl y y Ht Hy Hy)
      as (fa & fb & Hfa & Hfb & Hr).
    assert (fb = fa) as -> by congruence.
    exists fa. now rewrite (factor_entry _ _ _ _ Ht Hy).
  - intros v ty base Hb Hv.
    destruct (base_unit_inv _ _ Hb) as (Hty%linear_not_temperature & tbl & Ht & Hy).
    destruct (convert_unit_known v base base ty Hty tbl _ _ Ht Hy Hy)
      as (fa & fb & Hfa & Hfb & Hr).
    change (Some (F64.of_Z 1) = Some fa) in Hfa.
    change (Some (F64.of_Z 1) = Some fb) in Hfb.
    assert (fa = F64.of_Z 1) as -> by congruence.
    assert (fb = F64.of_Z 1) as -> by congruence.
    rewrite Hr. f_equal.
    rewrite (F64Facts.mul_one_r v Hv). now apply F64Facts.div_one_r.
Qed.

Lemma same_unit_conversion_witness :
  eval (convert_unit (F64.decimal 5 1) "Kilogram" "Kilogram" "Weight")
  = Ok (F64.decimal 5 1).
Proof.
  apply (proj2 (proj2 same_unit_conversion) (F64.decimal 5 1) "Weight" "Kilogram");
    reflexivity.
Defined.

(** C7. For each linear category and every unit [X] of its table, converting
    1 from [X] to the base unit (Meter for Length, Kilogram for Weight)
    returns the factor of [X], a number equal to itself under [==]. *)
Theorem base_unit_property (ty base X : string) :
  base_unit ty = Some base → is_unit ty X →
  ∃ f, factor ty X = Some f
       ∧ eval (convert_unit (F64.of_Z 1) X base ty) = Ok f
       ∧ F64.eqb f f = true.
Proof.
  intros Hb HX.
  destruct (base_unit_inv _ _ Hb) as (Hty%linear_not_temperature & tbl & Ht & Hy).
  destruct (is_unit_inv _ _ HX) as (tbl' & y & Ht' & HyX).
  assert (tbl' = tbl) as -> by congruence.
  destruct (linear_entry _ _ _ _ Hty Ht HyX) as (f & Hf & _ & Hpos & Hre).
  destruct (convert_unit_known (F64.of_Z 1) X base ty Hty tbl _ _ Ht HyX Hy)
    as (fa & fb & Hfa & Hfb & Hr).
  change (Some (F64.of_Z 1) = Some fb) in Hfb.
  assert (fb = F64.of_Z 1) as -> by congruence.
  assert (fa = f) as -> by congruence.
  exists f. rewrite (factor_entry _ _ _ _ Ht HyX).
  destruct (F64Facts.positive_real_shape f Hpos Hre) as (m & e & -> & Hbd).
  split; [done|]. split; [|apply F64Facts.eqb_refl_finite].
  rewrite Hr. f_equal.
  rewrite (F64Facts.mul_one_l (S754_finite false m e) Hbd).
  now apply F64Facts.div_one_r.
Qed.

Lemma base_unit_property_witness :
  ∃ f, factor "Weight" "Pound" = Some f
       ∧ eval (convert_unit (F64.of_Z 1) "Pound" "Kilogram" "Weight") = Ok f
       ∧ F64.eqb f f = true.
Proof.
  apply (base_unit_property "Weight" "Kilogram" "Pound").
  - reflexivity.
  - eexists. reflexivity.
Defined.

(** C8. The tables satisfy the invariant (each linear category has a table
    whose base unit has factor exactly 1 and whose factors are all positive
    numbers), and [convert_unit] and [convert_temperature] leave the store,
    hence the tables and their invariant, as they found them, whatever the
    arguments and the outcome. *)
Theorem tables_invariant_constant :
  units_invariant UNITS
  ∧ (∀ (v : F64.t) (a b ty : string) (g : globals),
       snd (convert_unit v a b ty g) = g)
  ∧ (∀ (v : F64.t) (a b : string) (g : globals),
       snd (convert_temperature v a b g) = g)
  ∧ (∀ (v : F64.t) (a b ty : string),
       units_invariant (g_UNITS (exec (convert_unit v a b ty))))
  ∧ (∀ (v : F64.t) (a b : string),
       units_invariant (g_UNITS (exec (convert_temperature v a b)))).
Proof.
  assert (Hinv : units_invariant UNITS).
  { intros ty base Hb.
    destruct (base_unit_inv _ _ Hb) as (Hty%linear_not_temperature & tbl & Ht & Hy).
    exists tbl. split; [done|]. split; [now rewrite Hy|].
    now apply (linear_positive ty). }
  split; [done|].
  split; [intros; apply read_only_convert_unit|].
  split; [intros; apply read_only_convert_temperature|].
  split; intros; unfold exec.
  - now rewrite read_only_convert_unit.
  - now rewrite read_only_convert_temperature.
Qed.

(** C9. For every pair of units [a], [b] of the Length or the Weight table,
    converting zero from [a] to [b] returns zero (of the same sign). *)
Theorem zero_fixed_point (s : bool) (ty a b : string) :
  linear ty → is_unit ty a → is_unit ty b →
  eval (convert_unit (S754_zero s) a b ty) = Ok (S754_zero s).
Proof.
  intros Hty%linear_not_temperature Ha Hb.
  destruct (is_unit_inv _ _ Ha) as (tbl & ya & Ht & Hya).
  destruct (is_unit_inv _ _ Hb) as (tbl' & yb & Ht' & Hyb).
  assert (tbl' = tbl) as -> by congruence.
  destruct (linear_entry _ _ _ _ Hty Ht Hya) as (fa & Hfa & _ & Hpa & Hra).
  destruct (linear_entry _ _ _ _ Hty Ht Hyb) as (fb & Hfb & _ & Hpb & Hrb).
  destruct (convert_unit_known (S754_zero s) a b ty Hty tbl ya yb Ht Hya Hyb)
    as (fa' & fb' & Hfa' & Hfb' & Hr).
  assert (fa' = fa) as -> by congruence.
  assert (fb' = fb) as -> by congruence.
  destruct (F64Facts.positive_real_shape fa Hpa Hra) as (ma & ea & -> & _).
  destruct (F64Facts.positive_real_shape fb Hpb Hrb) as (mb & eb & -> & _).
  rewrite Hr. simpl. now rewrite !xorb_false_r.
Qed.

Lemma zero_fixed_point_witness :
  F64.of_Z 0 = S754_zero false
  ∧ eval (convert_unit (F64.of_Z 0) "Inch" "Mile" "Length") = Ok (F64.of_Z 0).
Proof.
  split; [reflexivity|].
  apply (zero_fixed_point false "Length" "Inch" "Mile").
  - left. reflexivity.
  - eexists. reflexivity.
  - eexists. reflexivity.
Defined.

(** C10. For every value and every pair of unit names neither of which is
    Fahrenheit or Kelvin, distinct unrecognised names included,
    [convert_temperature] returns the value itself: both legs take the
    Celsius case. *)
Theorem celsius_fallthrough (v : F64.t) (a b : string) (g : globals) :
  a ≠ "Fahrenheit" → a ≠ "Kelvin" → b ≠ "Fahrenheit" → b ≠ "Kelvin" →
  convert_temperature v a b g = (Ok v, g).
Proof.
  intros HaF HaK HbF HbK. rewrite convert_temperature_run.
  rewrite (scale_of_celsius a HaF HaK), (scale_of_celsius b HbF HbK).
  now destruct (String.eqb a b).
Qed.

Lemma celsius_fallthrough_witness :
  convert_temperature (F64.decimal 365 1) "X" "Y" initial
  = (Ok (F64.decimal 365 1), initial).
Proof.
  apply (celsius_fallthrough (F64.decimal 365 1) "X" "Y" initial); discriminate.
Defined.


(** ** More facts about binary64 operations *)

(** *** Signs *)

Lemma shr_1_nonneg (mrs : shr_record) : 0 ≤ shr_m mrs → 0 ≤ shr_m (shr_1 mrs).
Proof. destruct mrs as [[|[p|p|]|p] r s]; simpl; lia. Qed.

Lemma iter_shr_nonneg (k : positive) (mrs : shr_record) :
  0 ≤ shr_m mrs → 0 ≤ shr_m (SpecFloat.iter_pos shr_1 k mrs).
Proof.
  revert mrs. induction k as [k IH|k IH|]; intros mrs H; simpl.
  - apply IH, IH. now apply shr_1_nonneg.
  - now apply IH, IH.
  - now apply shr_1_nonneg.
Qed.

Lemma shr_nonneg (mrs : shr_record) (e n : Z) :
  0 ≤ shr_m mrs → 0 ≤ shr_m (fst (shr mrs e n)).
Proof.
  intros H. destruct n as [|p|p]; simpl; try done. now apply iter_shr_nonneg.
Qed.

Lemma shr_fexp_nonneg (m e : Z) (l : location) :
  0 ≤ m → 0 ≤ shr_m (fst (shr_fexp F64.prec F64.emax m e l)).
Proof.
  intros H. unfold shr_fexp. apply shr_nonneg.
  destruct l as [|[| |]]; simpl; lia.
Qed.

Lemma round_nearest_even_nonneg (m : Z) (l : location) :
  0 ≤ m → 0 ≤ round_nearest_even m l.
Proof.
  intros H. unfold round_nearest_even.
  destruct l as [|[| |]]; try lia. destruct (Z.even m); lia.
Qed.

Lemma round_aux_sign (s : bool) (m e : Z) (l : location) :
  0 ≤ m → sign_bit (binary_round_aux F64.prec F64.emax s m e l) = Some s.
Proof.
  intros H. unfold binary_round_aux.
  pose proof (shr_fexp_nonneg m e l H) as H1.
  destruct (shr_fexp F64.prec F64.emax m e l) as [mrs' e'].
  simpl in H1.
  pose proof (shr_fexp_nonneg _ e' loc_Exact
                (round_nearest_even_nonneg _ (loc_of_shr_record mrs') H1)) as H2.
  destruct (shr_fexp F64.prec F64.emax _ e' loc_Exact) as [mrs'' e''].
  simpl in H2. destruct (shr_m mrs'') as [|p|p]; [done| |lia].
  now destruct (e'' <=? F64.emax - F64.prec).
Qed.

Lemma round_aux_opp (s : bool) (m e : Z) (l : location) :
  binary_round_aux F64.prec F64.emax (negb s) m e l
  = SFopp (binary_round_aux F64.prec F64.emax s m e l).
Proof.
  unfold binary_round_aux.
  destruct (shr_fexp F64.prec F64.emax m e l) as [mrs' e'].
  destruct (shr_fexp F64.prec F64.emax _ e' loc_Exact) as [mrs'' e''].
  destruct (shr_m mrs'') as [|p|p]; try done.
  now destruct (e'' <=? F64.emax - F64.prec).
Qed.

(** Multiplying and dividing by a positive finite factor. *)
Lemma mul_positive_sign (v : F64.t) (m : positive) (e : Z) :
  sign_bit (F64.mul v (S754_finite false m e)) = sign_bit v.
Proof.
  destruct v as [s|s| |s mv ev]; simpl; rewrite ?xorb_false_r; try done.
  now apply round_aux_sign.
Qed.

Lemma div_core_nonneg (m1 m2 : positive) (e1 e2 : Z) :
  0 ≤ (SFdiv_core_binary F64.prec F64.emax (Zpos m1) e1 (Zpos m2) e2).1.1.
Proof.
  unfold SFdiv_core_binary.
  set (s := e1 - e2 - _).
  set (m' := match s with 0 => Zpos m1 | Zpos _ => Z.shiftl (Zpos m1) s | Zneg _ => 0 end).
  assert (Hm' : 0 ≤ m').
  { subst m'. destruct s; try lia. apply Z.shiftl_nonneg. lia. }
  pose proof (Z.div_pos m' (Zpos m2) Hm' ltac:(lia)) as Hq.
  unfold Z.div in Hq. destruct (Z.div_eucl m' (Zpos m2)) as [q r]. exact Hq.
Qed.

Lemma div_positive_sign (v : F64.t) (m : positive) (e : Z) :
  sign_bit (F64.div v (S754_finite false m e)) = sign_bit v.
Proof.
  destruct v as [s|s| |s mv ev]; simpl; rewrite ?xorb_false_r; try done.
  pose proof (div_core_nonneg mv m ev e) as H.
  destruct (SFdiv_core_binary F64.prec F64.emax (Zpos mv) ev (Zpos m) e) as [[q e'] l].
  now apply round_aux_sign.
Qed.

Lemma mul_opp (v : F64.t) (m : positive) (e : Z) :
  F64.mul (negate v) (S754_finite false m e) = negate (F64.mul v (S754_finite false m e)).
Proof.
  destruct v as [s|s| |s mv ev]; simpl; rewrite ?xorb_false_r; try done.
  apply round_aux_opp.
Qed.

Lemma div_opp (v : F64.t) (m : positive) (e : Z) :
  F64.div (negate v) (S754_finite false m e) = negate (F64.div v (S754_finite false m e)).
Proof.
  destruct v as [s|s| |s mv ev]; simpl; rewrite ?xorb_false_r; try done.
  destruct (SFdiv_core_binary F64.prec F64.emax (Zpos mv) ev (Zpos m) e) as [[q e'] l].
  apply round_aux_opp.
Qed.

(** *** Well-formed products *)

Lemma digits2_size (p : positive) : digits2_pos p = Pos.size p.
Proof. induction p; simpl; congruence. Qed.

Lemma digits_bounds (p : positive) :
  2 ^ (Zpos (digits2_pos p) - 1) ≤ Zpos p < 2 ^ Zpos (digits2_pos p).
Proof.
  rewrite digits2_size.
  pose proof (Pos.size_gt p) as Hgt. pose proof (Pos.size_le p) as Hle.
  apply Pos2Z.pos_lt_pos in Hgt. apply Pos2Z.pos_le_pos in Hle.
  rewrite Pos2Z.inj_pow in Hgt, Hle.
  replace (Zpos (Pos.size p)) with (Z.succ (Zpos (Pos.size p) - 1)) in Hle at 1 by lia.
  rewrite Z.pow_succ_r in Hle by lia. lia.
Qed.

Lemma digits_unique (x k : Z) :
  0 < x → 2 ^ (k - 1) ≤ x < 2 ^ k → Zdigits2 x = k.
Proof.
  intros Hx [Hlo Hhi]. destruct x as [|p|p]; try lia. simpl.
  destruct (digits_bounds p) as [Blo Bhi].
  set (d := Zpos (digits2_pos p)) in *.
  destruct (Z.lt_trichotomy d k) as [H|[H|H]]; [|done|].
  - assert (2 ^ d ≤ 2 ^ (k - 1)) by (apply Z.pow_le_mono_r; lia). lia.
  - assert (k < 0 ∨ 0 ≤ k) as [Hk|Hk] by lia.
    + rewrite Z.pow_neg_r in Hhi by lia. lia.
    + assert (2 ^ k ≤ 2 ^ (d - 1)) by (apply Z.pow_le_mono_r; lia). lia.
Qed.

Lemma shr_1_div2 (mrs : shr_record) :
  0 ≤ shr_m mrs → shr_m (shr_1 mrs) = shr_m mrs / 2.
Proof.
  intros H. rewrite <- Z.div2_div.
  destruct mrs as [[|[p|p|]|p] r s]; simpl in *; try done; lia.
Qed.

Lemma iter_shr_div (k : positive) (mrs : shr_record) :
  0 ≤ shr_m mrs →
  shr_m (SpecFloat.iter_pos shr_1 k mrs) = shr_m mrs / 2 ^ Zpos k
  ∧ 0 ≤ shr_m (SpecFloat.iter_pos shr_1 k mrs).
Proof.
  revert mrs. induction k as [k IH|k IH|]; intros mrs H; simpl SpecFloat.iter_pos.
  - pose proof (shr_1_nonneg _ H) as H1.
    destruct (IH _ H1) as [E2 H2]. destruct (IH _ H2) as [E3 H3].
    split; [|done]. rewrite E3, E2, shr_1_div2 by done.
    assert (P : 2 ^ Zpos k~1 = 2 * 2 ^ Zpos k * 2 ^ Zpos k).
    { replace (Zpos k~1) with (1 + Zpos k + Zpos k) by lia.
      rewrite !Z.pow_add_r by lia. reflexivity. }
    pose proof (Z.pow_pos_nonneg 2 (Zpos k) ltac:(lia) ltac:(lia)).
    rewrite !Z.div_div by nia. rewrite P. f_equal; lia.
  - destruct (IH _ H) as [E2 H2]. destruct (IH _ H2) as [E3 H3].
    split; [|done]. rewrite E3, E2.
    assert (P : 2 ^ Zpos k~0 = 2 ^ Zpos k * 2 ^ Zpos k).
    { replace (Zpos k~0) with (Zpos k + Zpos k) by lia.
      rewrite !Z.pow_add_r by lia. reflexivity. }
    pose proof (Z.pow_pos_nonneg 2 (Zpos k) ltac:(lia) ltac:(lia)).
    rewrite !Z.div_div by nia. rewrite P. f_equal; lia.
  - split; [|now apply shr_1_nonneg]. rewrite shr_1_div2 by done. reflexivity.
Qed.

Lemma shr_spec (mrs : shr_record) (e n : Z) :
  0 ≤ shr_m mrs → 0 ≤ n →
  shr_m (fst (shr mrs e n)) = shr_m mrs / 2 ^ n ∧ snd (shr mrs e n) = e + n.
Proof.
  intros H Hn. destruct n as [|p|p]; simpl; try lia.
  - rewrite Z.div_1_r. lia.
  - split; [|done]. now apply iter_shr_div.
Qed.

Lemma fx_eq (x : Z) : fx x = Z.max (x - 53) (-1074).
Proof. reflexivity. Qed.

Lemma first_shift_canonical (m : positive) (e : Z) :
  e ≤ fx (Zpos (digits2_pos m) + e) →
  let fe := fx (Zpos (digits2_pos m) + e) in
  let m' := Zpos m / 2 ^ (fe - e) in
  (m' = 0 ∧ fe = -1074) ∨ (0 < m' ∧ fx (Zdigits2 m' + fe) = fe).
Proof.
  intros Hle fe m'. destruct (digits_bounds m) as [Blo Bhi].
  set (d := Zpos (digits2_pos m)) in *.
  assert (Hd : 1 ≤ d) by (subst d; lia).
  set (n := fe - e) in *. assert (Hn : 0 ≤ n) by (subst n; lia).
  pose proof (Z.pow_pos_nonneg 2 n ltac:(lia) Hn) as Hpn.
  destruct (Z_lt_le_dec n d) as [Hlt|Hge].
  - right.
    assert (E1 : 2 ^ (d - 1) = 2 ^ n * 2 ^ (d - 1 - n)).
    { rewrite <- Z.pow_add_r by lia. f_equal. lia. }
    assert (E2 : 2 ^ d = 2 ^ n * 2 ^ (d - n)).
    { rewrite <- Z.pow_add_r by lia. f_equal. lia. }
    assert (Lo : 2 ^ (d - n - 1) ≤ m').
    { apply Z.div_le_lower_bound; [done|].
      replace (d - n - 1) with (d - 1 - n) by lia. lia. }
    assert (Hi : m' < 2 ^ (d - n)).
    { apply Z.div_lt_upper_bound; [done|]. lia. }
    pose proof (Z.pow_pos_nonneg 2 (d - n - 1) ltac:(lia) ltac:(lia)).
    split; [lia|].
    rewrite (digits_unique m' (d - n) ltac:(lia) (conj Lo Hi)).
    subst n fe. rewrite !fx_eq in *. lia.
  - left. split.
    + apply Z.div_small. split; [lia|].
      assert (2 ^ d ≤ 2 ^ n) by (apply Z.pow_le_mono_r; lia). lia.
    + subst n fe. rewrite !fx_eq in *. lia.
Qed.

Lemma second_shift_canonical (m' m1 fe : Z) :
  (m' = 0 ∧ fe = -1074) ∨ (0 < m' ∧ fx (Zdigits2 m' + fe) = fe) →
  m1 = m' ∨ m1 = m' + 1 →
  let n2 := fx (Zdigits2 m1 + fe) - fe in
  let m2 := m1 / 2 ^ n2 in
  0 ≤ n2 ∧ 0 ≤ m2 ∧ (0 < m2 → fx (Zdigits2 m2 + (fe + n2)) = fe + n2).
Proof.
  intros [[-> ->] | [Hpos Hcan]] Hm1 n2 m2.
  - destruct Hm1 as [-> | ->]; subst m2 n2; simpl; repeat split; try lia; done.
  - destruct m' as [|p|p]; try lia.
    destruct (digits_bounds p) as [Blo Bhi].
    assert (Hdig : Zdigits2 (Zpos p) = Zpos (digits2_pos p)) by reflexivity.
    set (d := Zpos (digits2_pos p)) in *.
    assert (Hd : 1 ≤ d) by (subst d; lia).
    rewrite Hdig in Hcan.
    assert (Hsame : Zdigits2 m1 = d → 0 ≤ n2 ∧ 0 ≤ m2
              ∧ (0 < m2 → fx (Zdigits2 m2 + (fe + n2)) = fe + n2)).
    { intros E. subst n2 m2. rewrite E, Hcan, Z.sub_diag. simpl (2 ^ 0).
      rewrite Z.div_1_r, Z.add_0_r, E, Hcan. lia. }
    destruct Hm1 as [-> | ->]; [now apply Hsame|].
    destruct (Z_lt_le_dec (Zpos p + 1) (2 ^ d)) as [Hlt|Hge].
    { apply Hsame. apply digits_unique; lia. }
    assert (Ep : Zpos p + 1 = 2 ^ d) by lia.
    assert (Ed1 : Zdigits2 (Zpos p + 1) = d + 1).
    { apply digits_unique; [lia|]. replace (d + 1 - 1) with d by lia.
      rewrite Z.pow_add_r by lia. change (2 ^ 1) with 2. lia. }
    subst n2 m2. rewrite Ed1, Ep. rewrite !fx_eq in *.
    destruct (Z.eq_dec d 53) as [E53|N53].
    + replace (Z.max (d + 1 + fe - 53) (-1074) - fe) with 1 by lia.
      change (2 ^ 1) with 2.
      assert (E2 : 2 ^ d / 2 = 2 ^ (d - 1)).
      { replace d with (d - 1 + 1) at 1 by lia. rewrite Z.pow_add_r by lia.
        change (2 ^ 1) with 2. now rewrite Z.div_mul. }
      rewrite E2.
      pose proof (Z.pow_pos_nonneg 2 (d - 1) ltac:(lia) ltac:(lia)).
      split; [lia|]. split; [lia|]. intros _.
      rewrite (digits_unique (2 ^ (d - 1)) d); [lia|lia|].
      split; [lia|]. apply Z.pow_lt_mono_r; lia.
    + replace (Z.max (d + 1 + fe - 53) (-1074) - fe) with 0 by lia.
      simpl (2 ^ 0). rewrite Z.div_1_r, Z.add_0_r.
      pose proof (Z.pow_pos_nonneg 2 d ltac:(lia) ltac:(lia)).
      split; [lia|]. split; [lia|]. intros _.
      rewrite (digits_unique (2 ^ d) (d + 1)); [lia|lia|].
      replace (d + 1 - 1) with d by lia. split; [lia|].
      apply Z.pow_lt_mono_r; lia.
Qed.

Lemma shr_record_of_loc_m (m : Z) (l : location) :
  shr_m (shr_record_of_loc m l) = m.
Proof. now destruct l as [|[| |]]. Qed.

Lemma round_nearest_even_cases (m : Z) (l : location) :
  round_nearest_even m l = m ∨ round_nearest_even m l = m + 1.
Proof.
  unfold round_nearest_even. destruct l as [|[| |]]; try tauto.
  destruct (Z.even m); tauto.
Qed.

(** Rounding a positive mantissa that has at least as many digits as its
    exponent asks for gives a well-formed float. *)
Lemma round_aux_valid (s : bool) (m : positive) (e : Z) (l : location) :
  e ≤ fx (Zpos (digits2_pos m) + e) →
  F64.valid (binary_round_aux F64.prec F64.emax s (Zpos m) e l) = true.
Proof.
  intros Hle. unfold binary_round_aux, shr_fexp.
  change (Zdigits2 (Zpos m)) with (Zpos (digits2_pos m)).
  change (fexp F64.prec F64.emax) with fx.
  set (fe := fx (Zpos (digits2_pos m) + e)) in *.
  destruct (shr_spec (shr_record_of_loc (Zpos m) l) e (fe - e)) as [Em Ee].
  { rewrite shr_record_of_loc_m. lia. }
  { lia. }
  rewrite shr_record_of_loc_m in Em.
  destruct (shr (shr_record_of_loc (Zpos m) l) e (fe - e)) as [mrs' e'].
  simpl in Em, Ee. subst e'. replace (e + (fe - e)) with fe by lia.
  pose proof (first_shift_canonical m e Hle) as S1. cbv zeta in S1. fold fe in S1.
  rewrite <- Em in S1.
  set (m1 := round_nearest_even (shr_m mrs') (loc_of_shr_record mrs')).
  pose proof (second_shift_canonical (shr_m mrs') m1 fe S1 (round_nearest_even_cases _ _)) as S2.
  cbv zeta in S2. destruct S2 as (Hn2 & Hm2 & Hcan).
  assert (Hm1 : 0 ≤ m1).
  { destruct (round_nearest_even_cases (shr_m mrs') (loc_of_shr_record mrs'))
      as [E|E]; fold m1 in E; destruct S1 as [[? ?]|[? ?]]; lia. }
  destruct (shr_spec (shr_record_of_loc m1 loc_Exact) fe (fx (Zdigits2 m1 + fe) - fe))
    as [Em2 Ee2].
  { simpl. lia. }
  { lia. }
  simpl shr_m in Em2 at 2.
  destruct (shr (shr_record_of_loc m1 loc_Exact) fe (fx (Zdigits2 m1 + fe) - fe))
    as [mrs'' e''].
  simpl in Em2, Ee2. rewrite <- Em2 in Hm2, Hcan. rewrite <- Ee2 in Hcan.
  destruct (shr_m mrs'') as [|p|p]; try done.
  destruct (e'' <=? F64.emax - F64.prec) eqn:Hb; [|done].
  unfold F64.valid, valid_binary, bounded, canonical_mantissa.
  rewrite Hb, andb_true_r. apply Z.eqb_eq. apply Hcan. lia.
Qed.

Lemma digits_mul (a b : positive) :
  Zpos (digits2_pos a) + Zpos (digits2_pos b) - 1 ≤ Zpos (digits2_pos (a * b)).
Proof.
  destruct (digits_bounds a) as [Alo _]. destruct (digits_bounds b) as [Blo _].
  destruct (digits_bounds (a * b)) as [_ Phi].
  set (da := Zpos (digits2_pos a)) in *. set (db := Zpos (digits2_pos b)) in *.
  set (dp := Zpos (digits2_pos (a * b))) in *.
  assert (1 ≤ da ∧ 1 ≤ db) as [? ?] by (subst da db; lia).
  destruct (Z_lt_le_dec dp (da + db - 1)) as [Hlt|Hge]; [|lia].
  assert (2 ^ dp ≤ 2 ^ (da - 1 + (db - 1))) by (apply Z.pow_le_mono_r; lia).
  rewrite Z.pow_add_r in * by lia. rewrite Pos2Z.inj_mul in Phi.
  pose proof (Z.pow_pos_nonneg 2 (da - 1) ltac:(lia) ltac:(lia)).
  pose proof (Z.pow_pos_nonneg 2 (db - 1) ltac:(lia) ltac:(lia)).
  nia.
Qed.

(** The product of two well-formed floats is a well-formed float. *)
Lemma mul_valid (x y : F64.t) :
  F64.valid x = true → F64.valid y = true → F64.valid (F64.mul x y) = true.
Proof.
  destruct x as [sx|sx| |sx mx ex], y as [sy|sy| |sy my ey]; try done.
  intros [Hcx Hex]%F64Facts.bounded_inv [Hcy Hey]%F64Facts.bounded_inv.
  unfold F64.mul, SFmul. apply round_aux_valid.
  pose proof (digits_mul mx my) as Hd.
  change (fexp F64.prec F64.emax) with fx in *.
  rewrite !fx_eq in *. unfold F64.emax, F64.prec in *.
  pose proof (Pos2Z.is_pos (digits2_pos mx)). pose proof (Pos2Z.is_pos (digits2_pos my)).
  lia.
Qed.

(** ** Further properties of the conversions *)

Lemma linear_factor_shape (ty u : string) :
  linear ty → is_unit ty u →
  ∃ tbl y m e, UNITS !! ty = Some tbl ∧ tbl !! u = Some y
               ∧ numeric y = Some (S754_finite false m e)
               ∧ bounded F64.prec F64.emax m e = true
               ∧ factor ty u = Some (S754_finite false m e).
Proof.
  intros Hty%linear_not_temperature Hu.
  destruct (is_unit_inv _ _ Hu) as (tbl & y & Ht & Hy).
  destruct (linear_entry _ _ _ _ Hty Ht Hy) as (f & Hf & _ & Hpos & Hre).
  destruct (F64Facts.positive_real_shape f Hpos Hre) as (m & e & -> & Hbd).
  exists tbl, y, m, e. rewrite (factor_entry _ _ _ _ Ht Hy). done.
Qed.

(** The result of a linear conversion, with the shape of the two factors. *)
Lemma convert_unit_linear_shape (v : F64.t) (ty a b : string) :
  linear ty → is_unit ty a → is_unit ty b →
  ∃ ma ea mb eb,
    factor ty a = Some (S754_finite false ma ea)
    ∧ factor ty b = Some (S754_finite false mb eb)
    ∧ bounded F64.prec F64.emax ma ea = true
    ∧ bounded F64.prec F64.emax mb eb = true
    ∧ eval (convert_unit v a b ty)
      = Ok (F64.div (F64.mul v (S754_finite false ma ea)) (S754_finite false mb eb)).
Proof.
  intros Hty Ha Hb.
  destruct (linear_factor_shape ty a Hty Ha) as (tbl & ya & ma & ea & Ht & Hya & Hna & Hba & Hfa).
  destruct (linear_factor_shape ty b Hty Hb) as (tbl' & yb & mb & eb & Ht' & Hyb & Hnb & Hbb & Hfb).
  assert (tbl' = tbl) as -> by congruence.
  destruct (convert_unit_known v a b ty (linear_not_temperature _ Hty) tbl ya yb Ht Hya Hyb)
    as (fa & fb & Hfa' & Hfb' & Hr).
  assert (fa = S754_finite false ma ea) as -> by congruence.
  assert (fb = S754_finite false mb eb) as -> by congruence.
  exists ma, ea, mb, eb. done.
Qed.

(** The result of a linear conversion in terms of the two factors. *)
Lemma convert_unit_scales_aux (v : F64.t) (ty a b : string) :
  linear ty → is_unit ty a → is_unit ty b →
  ∃ fa fb, factor ty a = Some fa ∧ factor ty b = Some fb
           ∧ eval (convert_unit v a b ty) = Ok (F64.div (F64.mul v fa) fb).
Proof.
  intros Hty Ha Hb.
  destruct (convert_unit_linear_shape v ty a b Hty Ha Hb)
    as (ma & ea & mb & eb & Hfa & Hfb & _ & _ & Hr).
  eauto 6.
Qed.

Lemma base_factor (ty base : string) :
  base_unit ty = Some base →
  linear ty ∧ is_unit ty base ∧ factor ty base = Some (F64.of_Z 1).
Proof.
  intros Hb. destruct (base_unit_inv _ _ Hb) as (Hty & tbl & Ht & Hy).
  split; [done|]. split.
  - unfold is_unit. rewrite (unit_entry_table _ _ _ Ht), Hy. eauto.
  - now rewrite (factor_entry _ _ _ _ Ht Hy).
Qed.

(** X1. Which key a failed lookup reports: the category when it is unknown;
    otherwise the source unit when it is missing, whether or not the target
    unit is missing too; otherwise the target unit. *)
Theorem convert_unit_error_key (v : F64.t) (a b ty : string) :
  ty ≠ "Temperature" →
  (UNITS !! ty = None → eval (convert_unit v a b ty) = Raise (KeyError ty))
  ∧ (is_Some (UNITS !! ty) → unit_entry ty a = None →
     eval (convert_unit v a b ty) = Raise (KeyError a))
  ∧ (is_unit ty a → unit_entry ty b = None →
     eval (convert_unit v a b ty) = Raise (KeyError b)).
Proof.
  intros Hty. split; [|split].
  - now apply convert_unit_unknown_category.
  - intros [tbl Ht] Ha. rewrite (unit_entry_table _ _ _ Ht) in Ha.
    now apply (convert_unit_unknown_from v a b ty Hty tbl).
  - intros Ha Hb. destruct (is_unit_inv _ _ Ha) as (tbl & ya & Ht & Hya).
    rewrite (unit_entry_table _ _ _ Ht) in Hb.
    now apply (convert_unit_unknown_to v a b ty Hty tbl ya).
Qed.

Lemma convert_unit_error_key_witness :
  eval (convert_unit (F64.of_Z 3) "Stone" "Carat" "Weight") = Raise (KeyError "Stone").
Proof.
  apply (convert_unit_error_key (F64.of_Z 3) "Stone" "Carat" "Weight").
  - discriminate.
  - eexists. reflexivity.
  - reflexivity.
Defined.

(** The tables hold the units of [unit_names], and no others. *)
Lemma is_unit_names (ty u : string) : is_unit ty u ↔ u ∈ unit_names ty.
Proof.
  split.
  - intros Hu. destruct (is_unit_inv _ _ Hu) as (tbl & y & Ht & Hy).
    destruct (units_cases _ _ Ht) as [-> | [-> | ->]];
      unfold unit_names; simpl String.eqb; cbv iota;
      unfold UNITS in Ht;
      rewrite ?(lookup_insert_ne _ "Length" "Weight"),
              ?(lookup_insert_ne _ "Length" "Temperature"),
              ?(lookup_insert_ne _ "Weight" "Temperature") in Ht by done;
      rewrite ?lookup_insert_eq, ?lookup_singleton_eq in Ht;
      injection Ht as <-;
      repeat (rewrite lookup_insert in Hy; case_decide;
              [subst u; set_solver|]);
      rewrite lookup_singleton in Hy; case_decide;
      first [discriminate | subst u; set_solver].
  - unfold unit_names.
    destruct (String.eqb_spec ty "Length") as [->|_].
    { rewrite !elem_of_cons, elem_of_nil.
      intros H; repeat destruct H as [-> | H]; try done; eexists; reflexivity. }
    destruct (String.eqb_spec ty "Weight") as [->|_].
    { rewrite !elem_of_cons, elem_of_nil.
      intros H; repeat destruct H as [-> | H]; try done; eexists; reflexivity. }
    destruct (String.eqb_spec ty "Temperature") as [->|_].
    { rewrite !elem_of_cons, elem_of_nil.
      intros H; repeat destruct H as [-> | H]; try done; eexists; reflexivity. }
    intros H. now apply elem_of_nil in H.
Qed.

(** No unit belongs to two categories. *)
Lemma unit_category_unique (ty ty' u : string) :
  is_unit ty u → is_unit ty' u → ty = ty'.
Proof.
  intros H H'.
  destruct (is_unit_inv _ _ H) as (tbl & y & Ht & _).
  destruct (is_unit_inv _ _ H') as (tbl' & y' & Ht' & _).
  apply is_unit_names in H. apply is_unit_names in H'.
  destruct (units_cases _ _ Ht) as [-> | [-> | ->]];
    destruct (units_cases _ _ Ht') as [-> | [-> | ->]]; try done;
    unfold unit_names in H, H'; simpl in H, H'; exfalso;
    rewrite !elem_of_cons, elem_of_nil in H;
    rewrite !elem_of_cons, elem_of_nil in H';
    repeat destruct H as [-> | H]; try done;
    repeat destruct H' as [H' | H']; try done.
Qed.

(** X2. Units do not cross categories: in a linear category, a source or a
    target unit that belongs to another category raises [KeyError] for that
    unit. *)
Theorem convert_unit_foreign_unit (v : F64.t) (ty ty' a b : string) :
  linear ty → ty' ≠ ty →
  (is_unit ty' a → eval (convert_unit v a b ty) = Raise (KeyError a))
  ∧ (is_unit ty a → is_unit ty' b →
     eval (convert_unit v a b ty) = Raise (KeyError b)).
Proof.
  intros Hlin Hne.
  assert (Hty : ty ≠ "Temperature") by now apply linear_not_temperature.
  assert (Htbl : is_Some (UNITS !! ty)) by (destruct Hlin as [-> | ->]; eexists; reflexivity).
  assert (Hforeign : ∀ u, is_unit ty' u → unit_entry ty u = None).
  { intros u Hu. destruct (unit_entry ty u) as [y|] eqn:E; [|done].
    exfalso. apply Hne. apply (unit_category_unique ty' ty u Hu).
    unfold is_unit. rewrite E. eauto. }
  destruct Htbl as [tbl Ht]. split.
  - intros Ha%Hforeign. rewrite (unit_entry_table _ _ _ Ht) in Ha.
    now apply (convert_unit_unknown_from v a b ty Hty tbl).
  - intros Ha Hb%Hforeign.
    destruct (is_unit_inv _ _ Ha) as (tbl' & ya & Ht' & Hya).
    assert (tbl' = tbl) as -> by congruence.
    rewrite (unit_entry_table _ _ _ Ht) in Hb.
    now apply (convert_unit_unknown_to v a b ty Hty tbl ya).
Qed.

Lemma convert_unit_foreign_unit_witness :
  eval (convert_unit (F64.of_Z 2) "Meter" "Gram" "Length") = Raise (KeyError "Gram").
Proof.
  apply (proj2 (convert_unit_foreign_unit (F64.of_Z 2) "Length" "Weight" "Meter" "Gram"
                  (or_introl eq_refl) ltac:(discriminate))).
  - eexists. reflexivity.
  - eexists. reflexivity.
Defined.

(** X3. A linear conversion commutes with the change of sign: converting the
    opposite of a value gives the opposite of the converted value, exactly. *)
Theorem convert_unit_negate (v : F64.t) (ty a b : string) :
  linear ty → is_unit ty a → is_unit ty b →
  ∃ r, eval (convert_unit v a b ty) = Ok r
       ∧ eval (convert_unit (negate v) a b ty) = Ok (negate r).
Proof.
  intros Hty Ha Hb.
  destruct (convert_unit_linear_shape v ty a b Hty Ha Hb)
    as (ma & ea & mb & eb & Hfa & Hfb & _ & _ & Hr).
  destruct (convert_unit_linear_shape (negate v) ty a b Hty Ha Hb)
    as (ma' & ea' & mb' & eb' & Hfa' & Hfb' & _ & _ & Hr').
  rewrite Hfa in Hfa'. rewrite Hfb in Hfb'.
  injection Hfa' as <- <-. injection Hfb' as <- <-.
  eexists. split; [exact Hr|]. rewrite Hr'. f_equal.
  now rewrite mul_opp, div_opp.
Qed.

Lemma convert_unit_negate_witness :
  ∃ r, eval (convert_unit (F64.of_Z 12) "Foot" "Yard" "Length") = Ok r
       ∧ eval (convert_unit (negate (F64.of_Z 12)) "Foot" "Yard" "Length")
         = Ok (negate r).
Proof.
  apply (convert_unit_negate (F64.of_Z 12) "Length" "Foot" "Yard").
  - left. reflexivity.
  - eexists. reflexivity.
  - eexists. reflexivity.
Defined.

(** X4. A linear conversion keeps the sign: the result has the sign of the
    value, also when it is a zero or an infinity, and it is a NaN only when
    the value is one. *)
Theorem convert_unit_sign (v : F64.t) (ty a b : string) :
  linear ty → is_unit ty a → is_unit ty b →
  ∃ r, eval (convert_unit v a b ty) = Ok r ∧ sign_bit r = sign_bit v.
Proof.
  intros Hty Ha Hb.
  destruct (convert_unit_linear_shape v ty a b Hty Ha Hb)
    as (ma & ea & mb & eb & _ & _ & _ & _ & Hr).
  eexists. split; [exact Hr|].
  now rewrite div_positive_sign, mul_positive_sign.
Qed.

Lemma convert_unit_sign_witness :
  ∃ r, eval (convert_unit (negate (F64.decimal 25 1)) "Ounce" "Milligram" "Weight") = Ok r
       ∧ sign_bit r = Some true.
Proof.
  apply (convert_unit_sign (negate (F64.decimal 25 1)) "Weight" "Ounce" "Milligram").
  - right. reflexivity.
  - eexists. reflexivity.
  - eexists. reflexivity.
Defined.

(** X5. A NaN and the two infinities pass through every conversion as they
    are and raise nothing: through [convert_temperature] whatever the two
    names, and through a linear conversion between units of the table. *)
Theorem not_finite_passes (v : F64.t) :
  not_finite v = true →
  (∀ (a b : string) (g : globals), convert_temperature v a b g = (Ok v, g))
  ∧ (∀ (ty a b : string), linear ty → is_unit ty a → is_unit ty b →
       eval (convert_unit v a b ty) = Ok v).
Proof.
  intros Hv. split.
  - intros a b g. rewrite convert_temperature_run.
    destruct (String.eqb a b); [done|].
    destruct v as [s|s| |s m e]; try discriminate;
      destruct (scale_of a), (scale_of b); try destruct s; reflexivity.
  - intros ty a b Hty Ha Hb.
    destruct (convert_unit_linear_shape v ty a b Hty Ha Hb)
      as (ma & ea & mb & eb & _ & _ & _ & _ & Hr).
    rewrite Hr. destruct v as [s|s| |s m e]; try discriminate; try destruct s; reflexivity.
Qed.

Lemma not_finite_passes_witness :
  convert_temperature (S754_infinity true) "Kelvin" "Fahrenheit" initial
  = (Ok (S754_infinity true), initial).
Proof.
  apply (proj1 (not_finite_passes (S754_infinity true) eq_refl)).
Defined.

(** X6. Temperature conversions compose through Celsius: for two different
    names, converting to Celsius and then from Celsius, in two calls, gives
    exactly the float of the direct conversion. *)
Theorem convert_temperature_via_celsius (v : F64.t) (a b : string) (g : globals) :
  a ≠ b →
  ∃ c, convert_temperature v a "Celsius" g = (Ok c, g)
       ∧ convert_temperature c "Celsius" b g = convert_temperature v a b g.
Proof.
  intros Hab. eexists. split; [apply convert_temperature_run|].
  rewrite !convert_temperature_run. f_equal. f_equal.
  rewrite (proj2 (String.eqb_neq a b) Hab).
  change (scale_of "Celsius") with Celsius. simpl of_celsius. simpl to_celsius.
  destruct (String.eqb_spec a "Celsius") as [->|Ha];
    destruct (String.eqb_spec "Celsius" b) as [<-|Hb]; try done.
Qed.

Lemma convert_temperature_via_celsius_witness :
  ∃ c, convert_temperature (F64.of_Z 451) "Fahrenheit" "Celsius" initial = (Ok c, initial)
       ∧ convert_temperature c "Celsius" "Kelvin" initial
         = convert_temperature (F64.of_Z 451) "Fahrenheit" "Kelvin" initial.
Proof.
  apply (convert_temperature_via_celsius (F64.of_Z 451) "Fahrenheit" "Kelvin" initial).
  discriminate.
Defined.

(** X7. Converting from the base unit of a linear category divides by the
    factor of the target unit: the multiplication by the base factor 1 is
    exact. *)
Theorem convert_unit_from_base (v : F64.t) (ty base u : string) :
  base_unit ty = Some base → is_unit ty u → F64.valid v = true →
  ∃ f, factor ty u = Some f
       ∧ eval (convert_unit v base u ty) = Ok (F64.div v f).
Proof.
  intros Hb Hu Hv. destruct (base_factor _ _ Hb) as (Hty & Hbu & Hbf).
  destruct (convert_unit_scales_aux v ty base u Hty Hbu Hu) as (fa & fb & Hfa & Hfb & Hr).
  assert (fa = F64.of_Z 1) as -> by congruence.
  exists fb. split; [done|]. now rewrite Hr, (F64Facts.mul_one_r v Hv).
Qed.

Lemma convert_unit_from_base_witness :
  ∃ f, factor "Length" "Inch" = Some f
       ∧ eval (convert_unit (F64.of_Z 2) "Meter" "Inch" "Length")
         = Ok (F64.div (F64.of_Z 2) f).
Proof.
  apply (convert_unit_from_base (F64.of_Z 2) "Length" "Meter" "Inch").
  - reflexivity.
  - eexists. reflexivity.
  - reflexivity.
Defined.

(** X8. Converting to the base unit of a linear category multiplies by the
    factor of the source unit: the division by the base factor 1 is exact. *)
Theorem convert_unit_to_base (v : F64.t) (ty base u : string) :
  base_unit ty = Some base → is_unit ty u → F64.valid v = true →
  ∃ f, factor ty u = Some f
       ∧ eval (convert_unit v u base ty) = Ok (F64.mul v f).
Proof.
  intros Hb Hu Hv. destruct (base_factor _ _ Hb) as (Hty & Hbu & Hbf).
  destruct (convert_unit_linear_shape v ty u base Hty Hu Hbu)
    as (ma & ea & mb & eb & Hfa & Hfb & Hba & _ & Hr).
  exists (S754_finite false ma ea). split; [done|]. rewrite Hr. f_equal.
  assert (S754_finite false mb eb = F64.of_Z 1) as -> by congruence.
  apply F64Facts.div_one_r. now apply mul_valid.
Qed.

Lemma convert_unit_to_base_witness :
  ∃ f, factor "Weight" "Pound" = Some f
       ∧ eval (convert_unit (F64.of_Z 150) "Pound" "Kilogram" "Weight")
         = Ok (F64.mul (F64.of_Z 150) f).
Proof.
  apply (convert_unit_to_base (F64.of_Z 150) "Weight" "Kilogram" "Pound").
  - reflexivity.
  - eexists. reflexivity.
  - reflexivity.
Defined.

(** X9. Linear conversions compose through the base unit: converting to the
    base unit and then from the base unit, in two calls, gives exactly the
    float of the direct conversion. *)
Theorem convert_unit_via_base (v : F64.t) (ty base a b : string) :
  base_unit ty = Some base → is_unit ty a → is_unit ty b → F64.valid v = true →
  ∃ r, eval (convert_unit v a base ty) = Ok r
       ∧ eval (convert_unit r base b ty) = eval (convert_unit v a b ty).
Proof.
  intros Hb Ha Hbb Hv. destruct (base_factor _ _ Hb) as (Hty & Hbu & Hbf).
  destruct (convert_unit_linear_shape v ty a base Hty Ha Hbu)
    as (ma & ea & m1 & e1 & Hfa & Hf1 & Hba & _ & Hr1).
  assert (S754_finite false m1 e1 = F64.of_Z 1) as E1 by congruence.
  rewrite E1 in Hr1.
  assert (Hval : F64.valid (F64.mul v (S754_finite false ma ea)) = true)
    by now apply mul_valid.
  rewrite (F64Facts.div_one_r _ Hval) in Hr1.
  eexists. split; [exact Hr1|].
  destruct (convert_unit_scales_aux (F64.mul v (S754_finite false ma ea)) ty base b Hty Hbu Hbb)
    as (f1 & fb & Hf1' & Hfb & Hr2).
  assert (f1 = F64.of_Z 1) as -> by congruence.
  rewrite (F64Facts.mul_one_r _ Hval) in Hr2.
  destruct (convert_unit_scales_aux v ty a b Hty Ha Hbb) as (fa' & fb' & Hfa' & Hfb' & Hr3).
  rewrite Hr2, Hr3. congruence.
Qed.

Lemma convert_unit_via_base_witness :
  ∃ r, eval (convert_unit (F64.of_Z 3) "Mile" "Meter" "Length") = Ok r
       ∧ eval (convert_unit r "Meter" "Foot" "Length")
         = eval (convert_unit (F64.of_Z 3) "Mile" "Foot" "Length").
Proof.
  apply (convert_unit_via_base (F64.of_Z 3) "Length" "Meter" "Mile" "Foot").
  - reflexivity.
  - eexists. reflexivity.
  - eexists. reflexivity.
  - reflexivity.
Defined.

(** ** The form *)

Lemma elem_of_keys {V : Type} (d : gmap string V) (k : string) :
  k ∈ keys d ↔ is_Some (d !! k).
Proof.
  unfold keys. rewrite list_elem_of_fmap. split.
  - intros [[k' v] [-> H]]. apply elem_of_map_to_list in H. eauto.
  - intros [v Hv]. exists (k, v). split; [done|]. now apply elem_of_map_to_list.
Qed.

Lemma keys_nonempty {V : Type} (d : gmap string V) (k : string) :
  is_Some (d !! k) → keys d ≠ [].
Proof.
  intros H%elem_of_keys E. rewrite E in H. now apply elem_of_nil in H.
Qed.

Lemma table_nonempty (ty : string) (tbl : table) :
  UNITS !! ty = Some tbl → keys tbl ≠ [].
Proof.
  intros Ht.
  assert (Hu : ∃ u, is_unit ty u).
  { destruct (units_cases _ _ Ht) as [-> | [-> | ->]];
      [exists "Meter" | exists "Kilogram" | exists "Celsius"]; eexists; reflexivity. }
  destruct Hu as [u Hu]. destruct (is_unit_inv _ _ Hu) as (tbl' & y & Ht' & Hy).
  assert (tbl' = tbl) as -> by congruence.
  apply (keys_nonempty tbl u). eauto.
Qed.

(** Units of one category of the table always convert, Temperature
    included. *)
Lemma offered_units_convert (v : F64.t) (ty a b : string) :
  is_unit ty a → is_unit ty b → ∃ r, eval (convert_unit v a b ty) = Ok r.
Proof.
  intros [ya Ha] [yb Hb].
  destruct (convert_unit_outcome v a b ty)
    as [(_ & r & Hr) | [(_ & Hc & _) | (_ & _ & _ & r & Hr)]]; eauto.
  destruct Hc as [Hn | [Hn | Hn]]; try congruence.
  unfold unit_entry in Ha. rewrite Hn in Ha. discriminate.
Qed.

(** X10. Whatever the user picks and enters, the form never takes its error
    branch and never fails: the category picked is a key of [UNITS], the two
    units picked are keys of its table, the conversion returns, and the page
    shows the value entered and the converted value, and no error box. *)
Theorem main_shows_result (ui : widgets) :
  offers_choice ui →
  is_unit (chosen_type ui) (chosen_from ui)
  ∧ is_unit (chosen_type ui) (chosen_to ui)
  ∧ ∃ r page,
      eval (convert_unit (number_input ui "Enter Value")
              (chosen_from ui) (chosen_to ui) (chosen_type ui)) = Ok r
      ∧ main ui initial = (Ok page, initial)
      ∧ StInfo (number_input ui "Enter Value") (chosen_from ui) ∈ page
      ∧ StSuccess r (chosen_to ui) ∈ page
      ∧ ∀ e, StError e ∉ page.
Proof.
  intros Hui.
  assert (Hty : chosen_type ui ∈ keys UNITS).
  { apply Hui, (keys_nonempty UNITS "Length"). eexists. reflexivity. }
  apply elem_of_keys in Hty. destruct Hty as [tbl Ht].
  pose proof (table_nonempty _ _ Ht) as Hne.
  assert (Ha : is_unit (chosen_type ui) (chosen_from ui)).
  { unfold is_unit, chosen_from. rewrite (unit_entry_table _ _ _ Ht), Ht.
    apply elem_of_keys. now apply Hui. }
  assert (Hb : is_unit (chosen_type ui) (chosen_to ui)).
  { unfold is_unit, chosen_to. rewrite (unit_entry_table _ _ _ Ht), Ht.
    apply elem_of_keys. now apply Hui. }
  split; [done|]. split; [done|].
  destruct (offered_units_convert (number_input ui "Enter Value") _ _ _ Ha Hb) as [r Hr].
  assert (Hrun : convert_unit (number_input ui "Enter Value")
                   (chosen_from ui) (chosen_to ui) (chosen_type ui) initial
                 = (Ok r, initial)).
  { pose proof (read_only_convert_unit (number_input ui "Enter Value")
                  (chosen_from ui) (chosen_to ui) (chosen_type ui) initial) as Hs.
    unfold eval in Hr.
    destruct (convert_unit _ _ _ _ initial) as [x g']. simpl in *. congruence. }
  exists r. eexists. split; [done|]. split.
  - unfold main, mbind, M_bind, load_UNITS, try_except. simpl g_UNITS.
    fold (chosen_type ui). rewrite (getitem_some _ _ _ initial Ht).
    change (g_UNITS initial) with UNITS. rewrite (getitem_some _ _ _ initial Ht).
    unfold chosen_from, chosen_to in Hrun. rewrite Ht in Hrun. simpl default in Hrun.
    rewrite Hrun. reflexivity.
  - unfold chosen_from, chosen_to. rewrite Ht. simpl default.
    split; [set_solver|]. split; [set_solver|].
    intros e He. rewrite !elem_of_app, !elem_of_cons, !elem_of_nil in He.
    repeat destruct He as [He | He]; try discriminate; done.
Qed.

Lemma main_shows_result_witness :
  is_unit (chosen_type (first_option (F64.of_Z 1)))
          (chosen_from (first_option (F64.of_Z 1))).
Proof.
  apply (main_shows_result (first_option (F64.of_Z 1))).
  intros label options key Hne. destruct options as [|o l]; [done|]. simpl. left.
Defined.

(** ** Where a NaN can come from *)

Lemma sign_bit_not_nan (x : F64.t) (s : bool) : sign_bit x = Some s → is_nan x = false.
Proof. now destruct x. Qed.

Lemma binary_round_not_nan (s : bool) (m : positive) (e : Z) :
  is_nan (binary_round F64.prec F64.emax s m e) = false.
Proof.
  unfold binary_round. destruct (shl_align m e _) as [mz ez].
  apply (sign_bit_not_nan _ s), round_aux_sign. lia.
Qed.

Lemma binary_normalize_not_nan (m e : Z) (sz : bool) :
  is_nan (binary_normalize F64.prec F64.emax m e sz) = false.
Proof. destruct m; simpl; [done | apply binary_round_not_nan ..]. Qed.

Section NotNan.
Variables x c : F64.t.
Hypothesis Hx : is_nan x = false.
Hypothesis Hc : has_mantissa c = true.

Lemma add_not_nan : is_nan (F64.add x c) = false.
Proof.
  destruct c as [| | |sc mc ec]; try discriminate.
  destruct x as [s|s| |s m e]; try done. apply binary_normalize_not_nan.
Qed.

Lemma sub_not_nan : is_nan (F64.sub x c) = false.
Proof.
  destruct c as [| | |sc mc ec]; try discriminate.
  destruct x as [s|s| |s m e]; try done. apply binary_normalize_not_nan.
Qed.

Lemma mul_not_nan : is_nan (F64.mul x c) = false.
Proof.
  destruct c as [| | |sc mc ec]; try discriminate.
  destruct x as [s|s| |s m e]; try done.
  apply (sign_bit_not_nan _ (xorb s sc)), round_aux_sign. lia.
Qed.

Lemma div_not_nan : is_nan (F64.div x c) = false.
Proof.
  destruct c as [| | |sc mc ec]; try discriminate.
  destruct x as [s|s| |s m e]; try done.
  unfold F64.div, SFdiv. pose proof (div_core_nonneg m mc e ec) as H.
  destruct (SFdiv_core_binary F64.prec F64.emax (Zpos m) e (Zpos mc) ec) as [[q e'] l].
  now apply (sign_bit_not_nan _ (xorb s sc)), round_aux_sign.
Qed.
End NotNan.

(** X11. A conversion returns a NaN exactly when it is given one: for
    [convert_temperature] whatever the two names, and for a linear
    conversion between units of the table. *)
Theorem nan_only_from_nan (v : F64.t) :
  (∀ (a b : string) (g : globals),
     ∃ r, convert_temperature v a b g = (Ok r, g) ∧ is_nan r = is_nan v)
  ∧ (∀ (ty a b : string), linear ty → is_unit ty a → is_unit ty b →
       ∃ r, eval (convert_unit v a b ty) = Ok r ∧ is_nan r = is_nan v).
Proof.
  split.
  - intros a b g. rewrite convert_temperature_run. eexists. split; [reflexivity|].
    destruct (String.eqb a b); [done|].
    destruct (is_nan v) eqn:Hv.
    { destruct v; try discriminate. now destruct (scale_of a), (scale_of b). }
    assert (Hc : is_nan (to_celsius (scale_of a) v) = false).
    { destruct (scale_of a); simpl; [done| |].
      - apply div_not_nan; [|done]. apply mul_not_nan; [|done].
        now apply sub_not_nan.
      - now apply sub_not_nan. }
    destruct (scale_of b); simpl; [done| |].
    + apply add_not_nan; [|done]. apply div_not_nan; [|done].
      now apply mul_not_nan.
    + now apply add_not_nan.
  - intros ty a b Hty Ha Hb.
    destruct (convert_unit_linear_shape v ty a b Hty Ha Hb)
      as (ma & ea & mb & eb & _ & _ & _ & _ & Hr).
    eexists. split; [exact Hr|].
    destruct (is_nan v) eqn:Hv; [now destruct v|].
    apply div_not_nan; [|done]. now apply mul_not_nan.
Qed.

Lemma nan_only_from_nan_witness :
  ∃ r, eval (convert_unit S754_nan "Gram" "Pound" "Weight") = Ok r
       ∧ is_nan r = is_nan S754_nan.
Proof.
  apply (proj2 (nan_only_from_nan S754_nan) "Weight" "Gram" "Pound").
  - right. reflexivity.
  - eexists. reflexivity.
  - eexists. reflexivity.
Defined.
